(** * Blender Agent add-on: command server and dynamic skill registry

    A shallow embedding of

    - [blender_addon/handlers/dynamic_skills.py]: the SQLite-backed registry of
      dynamic skills, the unified statistics table and the call graph;
    - [blender_addon/handlers/__init__.py]: [call_handler];
    - [blender_addon/__init__.py]: [BlenderAgentServer._process_request] and
      [BlenderAgentServer._handle_client];
    - [blender_agent/protocol.py], [blender_agent/blender_client.py],
      [blender_agent/skill_executor.py] and [blender_agent/server.py]: what the
      clients of the server write and how they read its responses.

    Python values that travel over the wire are JSON values.  The three SQLite
    tables are finite maps keyed by their primary keys, and every
    [cursor.execute] of the source is a constructor of [Sql], so that a Python
    function reads as the list of statements it issues.  What the add-on calls
    but does not define (the JSON decoder, [exec], the scene handlers, the
    formatting of non-string values) is collected in the record [Host].

    What a run depends on beyond its input is an explicit argument: the clock
    readings ([CURRENT_TIMESTAMP], the measured milliseconds) and how far the
    host thread got with a task when the network thread stopped waiting for
    it.  Counters are unbounded integers. *)

From stdpp Require Import gmap strings list fin_maps sorting pretty.
From Stdlib Require Import ZArith Ascii.

Set Warnings "-register-all".

(** ** Python values *)

(** A decoded JSON document.  [JObj] is a Python [dict] in insertion order;
    [JNum] carries the integers (no claim computes on fractional numbers). *)
Inductive json : Type :=
  | JNull
  | JBool (b : bool)
  | JNum (n : Z)
  | JStr (s : string)
  | JArr (items : list json)
  | JObj (fields : list (string * json)).

(** [bool(v)]: the truth value Python gives to [v] in [if v:] and [not v]. *)
Definition truthy (v : json) : bool :=
  match v with
  | JNull => false
  | JBool b => b
  | JNum n => negb (n =? 0)%Z
  | JStr s => negb (String.eqb s "")
  | JArr items => if items is [] then false else true
  | JObj fields => if fields is [] then false else true
  end.

(** Truth value of a [str | None] slot. *)
Definition truthy_str (o : option string) : bool :=
  match o with
  | Some s => negb (String.eqb s "")
  | None => false
  end.

(** Lookup in a [dict] literal: the first binding of [key]. *)
Fixpoint assoc (key : string) (fields : list (string * json)) : option json :=
  match fields with
  | [] => None
  | (k, v) :: rest => if String.eqb k key then Some v else assoc key rest
  end.

Definition type_name (v : json) : string :=
  match v with
  | JNull => "NoneType"
  | JBool _ => "bool"
  | JNum _ => "int"
  | JStr _ => "str"
  | JArr _ => "list"
  | JObj _ => "dict"
  end.

(** ** Exceptions *)

Record Exn := mkExn { exn_type : string; exn_msg : string }.

(** [str(e)] *)
Definition str_exn (e : Exn) : string := exn_msg e.

Inductive Result (A : Type) : Type :=
  | Ok (a : A)
  | Raise (e : Exn).
Arguments Ok {A} a.
Arguments Raise {A} e.

Definition ValueError (msg : string) : Exn := mkExn "ValueError" msg.
Definition OperationalError (msg : string) : Exn := mkExn "OperationalError" msg.
Definition IntegrityError (msg : string) : Exn := mkExn "IntegrityError" msg.

(** [v.get(key)] for an arbitrary value [v]: only a [dict] has the method. *)
Definition py_get (v : json) (key : string) : Result (option json) :=
  match v with
  | JObj fields => Ok (assoc key fields)
  | _ => Raise (mkExn "AttributeError"
                  ("'" +:+ type_name v +:+ "' object has no attribute 'get'"))
  end.

(** [v.get(key, default)] *)
Definition py_get_default (v : json) (key : string) (default : json) : Result json :=
  match py_get v key with
  | Ok o => Ok (from_option id default o)
  | Raise e => Raise e
  end.

(** ** The persistent store ([dynamic_skills.db]) *)

(** A row of [dynamic_skills], keyed by [name].  The [parameters] column holds
    [json.dumps(skill_params)], which [get_dynamic_skill] reads back with
    [json.loads]; the row keeps the decoded value. *)
Record SkillRow := mkSkillRow {
  sk_category : string;
  sk_description : string;
  sk_parameters : json;
  sk_code : string;
  sk_version : string;
  sk_created_at : string;
  sk_call_count : Z
}.

(** A row of [skill_statistics], keyed by [name]. *)
Record StatRow := mkStatRow {
  st_is_core : bool;
  st_direct_calls : Z;
  st_indirect_calls : Z;
  st_last_called : option string;
  st_total_time_ms : Z
}.

(** The three tables [init_db] creates; [skill_call_graph] is keyed by
    [(caller, callee)] and holds [call_count]. *)
Record Store := mkStore {
  dynamic_skills : gmap string SkillRow;
  skill_statistics : gmap string StatRow;
  skill_call_graph : gmap (string * string) Z
}.

Definition empty_store : Store := mkStore ∅ ∅ ∅.

(** The database file: absent, present without tables (what a bare
    [sqlite3.connect] leaves behind), or holding the three tables. *)
Inductive Db : Type :=
  | NoFile
  | NoTables
  | Ready (s : Store).

(** The statements the module issues, in the order of the source. *)
Inductive Sql : Type :=
  (** [INSERT OR REPLACE INTO dynamic_skills ... COALESCE((SELECT call_count ...), 0)] *)
  | ReplaceSkill (name category description : string) (parameters : json)
                 (code version now : string)
  (** [DELETE FROM dynamic_skills WHERE name = ?] *)
  | DeleteSkill (name : string)
  (** [UPDATE dynamic_skills SET call_count = call_count + 1 WHERE name = ?] *)
  | UpdateCallCount (name : string)
  (** [INSERT OR IGNORE INTO skill_statistics ... VALUES (?, TRUE, 0, 0, 0)] *)
  | InsertIgnoreStatistics (name : string)
  (** [INSERT INTO skill_statistics ... ON CONFLICT(name) DO UPDATE SET
      direct_calls = direct_calls + ?, indirect_calls = indirect_calls + ?,
      last_called = CURRENT_TIMESTAMP, total_time_ms = total_time_ms + ?] *)
  | UpsertStatistics (name : string) (is_core : bool) (direct indirect : Z)
                     (now : string) (elapsed_ms : Z)
  (** [INSERT INTO skill_call_graph ... VALUES (?, ?, 1)
      ON CONFLICT(caller, callee) DO UPDATE SET call_count = call_count + 1] *)
  | UpsertEdge (caller callee : string).

Definition bump_call_count (r : SkillRow) : SkillRow :=
  mkSkillRow (sk_category r) (sk_description r) (sk_parameters r) (sk_code r)
             (sk_version r) (sk_created_at r) (sk_call_count r + 1)%Z.

Definition upsert_stat_row (is_core : bool) (direct indirect : Z) (now : string)
    (elapsed_ms : Z) (old : option StatRow) : StatRow :=
  match old with
  | None => mkStatRow is_core direct indirect (Some now) elapsed_ms
  | Some r =>
      mkStatRow (st_is_core r)
                (st_direct_calls r + direct)%Z
                (st_indirect_calls r + indirect)%Z
                (Some now)
                (st_total_time_ms r + elapsed_ms)%Z
  end.

Definition execute_sql (q : Sql) (s : Store) : Store :=
  match q with
  | ReplaceSkill name category description parameters code version now =>
      let kept := from_option sk_call_count 0%Z (dynamic_skills s !! name) in
      mkStore (<[name := mkSkillRow category description parameters code version
                                    now kept]> (dynamic_skills s))
              (skill_statistics s) (skill_call_graph s)
  | DeleteSkill name =>
      mkStore (delete name (dynamic_skills s)) (skill_statistics s)
              (skill_call_graph s)
  | UpdateCallCount name =>
      mkStore (alter bump_call_count name (dynamic_skills s)) (skill_statistics s)
              (skill_call_graph s)
  | InsertIgnoreStatistics name =>
      match skill_statistics s !! name with
      | Some _ => s
      | None =>
          mkStore (dynamic_skills s)
                  (<[name := mkStatRow true 0 0 None 0]> (skill_statistics s))
                  (skill_call_graph s)
      end
  | UpsertStatistics name is_core direct indirect now elapsed_ms =>
      mkStore (dynamic_skills s)
              (<[name := upsert_stat_row is_core direct indirect now elapsed_ms
                           (skill_statistics s !! name)]> (skill_statistics s))
              (skill_call_graph s)
  | UpsertEdge caller callee =>
      mkStore (dynamic_skills s) (skill_statistics s)
              (<[(caller, callee) :=
                   match skill_call_graph s !! (caller, callee) with
                   | Some n => (n + 1)%Z
                   | None => 1%Z
                   end]> (skill_call_graph s))
  end.

(** A connection's statements up to its [conn.commit()]. *)
Definition run_sql (qs : list Sql) (s : Store) : Store :=
  foldl (fun acc q => execute_sql q acc) s qs.

(** [init_db]: [CREATE TABLE IF NOT EXISTS] for the three tables. *)
Definition init_db (d : Db) : Db :=
  match d with
  | Ready s => Ready s
  | NoFile | NoTables => Ready empty_store
  end.

(** The store a function works on after it has called [init_db]. *)
Definition tables (d : Db) : Store :=
  match d with
  | Ready s => s
  | NoFile | NoTables => empty_store
  end.

Definition no_such_table (table : string) : Exn :=
  OperationalError ("no such table: " +:+ table).

(** ** Registry entry points that take Python strings *)

(** [register_core_handlers(handler_names)] *)
Definition register_core_handlers (handler_names : list string) (d : Db) : Db :=
  Ready (run_sql (InsertIgnoreStatistics <$> handler_names) (tables d)).

(** [track_core_handler_call(name, elapsed_ms)] *)
Definition track_core_handler_call (name : string) (elapsed_ms : Z) (now : string)
    (d : Db) : Db :=
  Ready (run_sql [UpsertStatistics name true 1 0 now elapsed_ms] (tables d)).

(** [track_indirect_handler_call(name, caller, elapsed_ms)] *)
Definition track_indirect_handler_call (name caller : string) (elapsed_ms : Z)
    (now : string) (d : Db) : Db :=
  Ready (run_sql [UpsertStatistics name true 0 1 now elapsed_ms;
                  UpsertEdge caller name] (tables d)).

(** The bookkeeping of [execute_dynamic_skill] (source lines 128-169): the
    statements issued once the skill's code has returned. *)
Definition execution_sql (skill_name : string) (caller : option string)
    (now : string) (elapsed_ms : Z) : list Sql :=
  let is_direct := if caller is None then true else false in
  [UpdateCallCount skill_name;
   UpsertStatistics skill_name false
     (if is_direct then 1 else 0) (if is_direct then 0 else 1) now elapsed_ms]
  ++ (if truthy_str caller then [UpsertEdge (default "" caller) skill_name] else []).

(** ** The host *)

(** A completed [call_handler(name, params, caller)] made by a compound
    handler, with the clock readings of its tracking. *)
Record TrackedCall := mkTrackedCall {
  tc_name : string;
  tc_caller : option string;
  tc_elapsed_ms : Z;
  tc_now : string
}.

(** What the add-on calls but does not define.  [Scene] is the state of the
    3D application, on which skill code and scene handlers act.  A scene
    handler reaches the store only through [call_handler]; skill code that
    opens the database file itself is outside the model. *)
Record Host := mkHost {
  Scene : Type;
  (** [json.loads(line)]; [None] is [json.JSONDecodeError]. *)
  json_loads : string -> option json;
  (** [exec(code, namespace)] followed by [namespace.get("result")], with
      [namespace["params"] = params]; [JNull] is Python's [None]. *)
  py_exec : string -> json -> Scene -> Result json * Scene;
  (** A compiled scene handler [handle_<name>(params)]: the tracked calls it
      made through [call_handler], then its return value or exception. *)
  scene_handler : string -> json -> Scene -> list TrackedCall * Result json * Scene;
  (** [str(v)] for a value that is not a [str]. *)
  py_format : json -> string;
  (** The text SQLite stores or compares for a bound value that is neither a
      [str] nor [None]; [None] when [sqlite3] cannot bind the value. *)
  sqlite_adapt : json -> option string;
  (** The interpreter's message for a failed operation on a value. *)
  runtime_message : string -> json -> string
}.

(** Clock readings of one call: [CURRENT_TIMESTAMP] at its bookkeeping and the
    measured [int((time.time() - start_time) * 1000)]. *)
Record Clock := mkClock {
  clk_now : string;
  clk_elapsed_ms : Z
}.

(** The dict [get_dynamic_skill] returns. *)
Record Skill := mkSkill {
  skill_name : string;
  skill_category : string;
  skill_description : string;
  skill_parameters : json;
  skill_code : string;
  skill_version : string
}.

Definition skill_of_row (name : string) (r : SkillRow) : Skill :=
  mkSkill name (sk_category r) (sk_description r) (sk_parameters r) (sk_code r)
          (sk_version r).

(** A parameter as SQLite receives it. *)
Inductive Bound : Type :=
  | BNull
  | BText (t : string)
  | BUnsupported.

Section Registry.

Context (H : Host).

(** [str(v)], as an f-string interpolates it. *)
Definition py_str (v : json) : string :=
  match v with
  | JStr s => s
  | _ => py_format H v
  end.

Definition sql_bind (v : json) : Bound :=
  match v with
  | JNull => BNull
  | JStr s => BText s
  | _ => match sqlite_adapt H v with
         | Some t => BText t
         | None => BUnsupported
         end
  end.

Definition binding_error (v : json) : Exn :=
  mkExn "ProgrammingError" (runtime_message H "bind" v).

(** [get_dynamic_skill(name)]: a [SELECT]; the store is read, never written. *)
Definition get_dynamic_skill (name : json) (d : Db) : Result (option Skill) :=
  match d with
  | NoFile => Ok None
  | NoTables => Raise (no_such_table "dynamic_skills")
  | Ready s =>
      match sql_bind name with
      | BUnsupported => Raise (binding_error name)
      | BNull => Ok None
      | BText key => Ok (skill_of_row key <$> dynamic_skills s !! key)
      end
  end.

(** The state the handlers run in: the store and the scene. *)
Record World := mkWorld {
  w_db : Db;
  w_scene : Scene H
}.

Definition success_marker : json := JObj [("success", JBool true)].

(** [execute_dynamic_skill(skill, params, caller)] *)
Definition execute_dynamic_skill (skill : Skill) (params : json)
    (caller : option string) (clk : Clock) (w : World) : Result json * World :=
  let code := skill_code skill in
  let skill_name := skill_name skill in
  match py_exec H code params (w_scene w) with
  | (Raise e, scene') => (Raise e, mkWorld (w_db w) scene')
  | (Ok bound, scene') =>
      let result := if bound is JNull then success_marker else bound in
      let elapsed_ms := clk_elapsed_ms clk in
      match w_db w with
      | Ready s =>
          (Ok result,
           mkWorld (Ready (run_sql (execution_sql skill_name caller (clk_now clk)
                                                  elapsed_ms) s)) scene')
      | NoFile | NoTables =>
          (Raise (no_such_table "dynamic_skills"), mkWorld NoTables scene')
      end
  end.

(** [get_all_dynamic_skills()]; the rows come in the key order of the map (SQL
    leaves the order of an unordered [SELECT] open). *)
Definition get_all_dynamic_skills (d : Db) : Result (list (string * SkillRow)) :=
  match d with
  | NoFile => Ok []
  | NoTables => Raise (no_such_table "dynamic_skills")
  | Ready s => Ok (map_to_list (dynamic_skills s))
  end.

Definition is_category (v : json) : bool :=
  match v with
  | JStr c =>
      bool_decide (c ∈ ["simple"; "standard"; "inspect"; "primitive"])
  | _ => false
  end.

Definition not_null_failed (column : string) : Exn :=
  IntegrityError ("NOT NULL constraint failed: dynamic_skills." +:+ column).

(** [handle_register_skill(params)].  Parameters are bound in the order of the
    statement, so an unsupported value is reported before a [NULL] in a
    [NOT NULL] column; [name], [category] and [code] have passed the checks
    above and are never [NULL]. *)
Definition handle_register_skill (params : json) (now : string) (d : Db)
    : Result json * Db :=
  match py_get_default params "name" JNull,
        py_get_default params "category" (JStr "standard"),
        py_get_default params "description" (JStr ""),
        py_get_default params "parameters" (JObj []),
        py_get_default params "code" JNull,
        py_get_default params "version" (JStr "1.0.0") with
  | Ok name, Ok category, Ok description, Ok skill_params, Ok code, Ok version =>
      if negb (truthy name) then (Raise (ValueError "Skill name is required"), d)
      else if negb (truthy code) then (Raise (ValueError "Skill code is required"), d)
      else if negb (is_category category) then
        (Raise (ValueError ("Invalid category: " +:+ py_str category)), d)
      else
        let d := init_db d in
        match sql_bind name, sql_bind category, sql_bind description,
              sql_bind code, sql_bind version with
        | BUnsupported, _, _, _, _ => (Raise (binding_error name), d)
        | _, BUnsupported, _, _, _ => (Raise (binding_error category), d)
        | _, _, BUnsupported, _, _ => (Raise (binding_error description), d)
        | _, _, _, BUnsupported, _ => (Raise (binding_error code), d)
        | _, _, _, _, BUnsupported => (Raise (binding_error version), d)
        | BText n, BText c, BText desc, BText src, BText ver =>
            (Ok (JObj [("success", JBool true);
                       ("name", name);
                       ("category", category);
                       ("version", version);
                       ("message", JStr ("Skill '" +:+ py_str name +:+ "' registered"))]),
             Ready (run_sql [ReplaceSkill n c desc skill_params src ver now]
                            (tables d)))
        | BNull, _, _, _, _ => (Raise (not_null_failed "name"), d)
        | _, BNull, _, _, _ => (Raise (not_null_failed "category"), d)
        | _, _, BNull, _, _ => (Raise (not_null_failed "description"), d)
        | _, _, _, BNull, _ => (Raise (not_null_failed "code"), d)
        | _, _, _, _, BNull => (Raise (not_null_failed "version"), d)
        end
  | Raise e, _, _, _, _, _ => (Raise e, d)
  | _, Raise e, _, _, _, _ => (Raise e, d)
  | _, _, Raise e, _, _, _ => (Raise e, d)
  | _, _, _, Raise e, _, _ => (Raise e, d)
  | _, _, _, _, Raise e, _ => (Raise e, d)
  | _, _, _, _, _, Raise e => (Raise e, d)
  end.

(** [handle_unregister_skill(params)] *)
Definition handle_unregister_skill (params : json) (d : Db) : Result json * Db :=
  match py_get_default params "name" JNull with
  | Raise e => (Raise e, d)
  | Ok name =>
      if negb (truthy name) then (Raise (ValueError "Skill name is required"), d)
      else
        let not_found := ValueError ("Skill not found: " +:+ py_str name) in
        match d with
        | NoFile => (Raise not_found, d)
        | NoTables => (Raise (no_such_table "dynamic_skills"), d)
        | Ready s =>
            match sql_bind name with
            | BUnsupported => (Raise (binding_error name), d)
            | BNull => (Raise not_found, d)
            | BText key =>
                let deleted := bool_decide (is_Some (dynamic_skills s !! key)) in
                let d' := Ready (run_sql [DeleteSkill key] s) in
                if negb deleted then (Raise not_found, d')
                else
                  (Ok (JObj [("success", JBool true);
                             ("name", name);
                             ("message",
                              JStr ("Skill '" +:+ py_str name +:+ "' unregistered"))]),
                   d')
            end
        end
  end.

(** The names of the static handler table, in the order [_register_handlers]
    lists them. *)
Definition scene_handler_names : list string :=
  [ "ping"; "get_scene_info"; "create_object"; "delete_object";
    "transform_object"; "set_material"; "render"; "get_blender_version";
    "get_extension_version"; "save_file"; "set_viewport"; "quit_blender";
    "new_file"; "show_status"; "open_file"; "duplicate_object";
    "set_mode"; "select_mesh_elements"; "extrude"; "loop_cut"; "bevel"; "inset";
    "add_modifier"; "apply_modifier"; "delete_faces"; "get_mesh_info";
    "shade_smooth"; "get_selection_info"; "select_boundary_faces";
    "grow_selection"; "shrink_selection"; "move_selection"; "snap_to_mesh";
    "find_inside_mesh"; "add_selection_noise";
    "mark_seam"; "clear_seam"; "unwrap"; "project_from_view";
    "create_armature"; "add_bone"; "parent_to_armature"; "set_bone_parent";
    "create_material"; "assign_material"; "set_material_color";
    "set_material_property"; "add_image_texture";
    "create_light"; "set_light_property"; "set_world_color";
    "set_render_engine"; "configure_render"; "render_image";
    "create_camera"; "set_camera_position"; "frame_object"; "reset_viewport";
    "set_viewport_shading"; "set_viewport_view";
    "render_product_views" ].

Definition registry_handler_names : list string :=
  [ "register_skill"; "list_skills"; "unregister_skill"; "get_skill_statistics";
    "get_call_graph" ].

Definition handler_names : list string :=
  scene_handler_names ++ registry_handler_names.

Definition core_skill_info (name : string) : json :=
  JObj [("name", JStr name); ("is_dynamic", JBool false)].

Definition dynamic_skill_info (include_code : bool) (row : string * SkillRow) : json :=
  let '(name, r) := row in
  JObj ([("name", JStr name);
         ("category", JStr (sk_category r));
         ("description", JStr (sk_description r));
         ("version", JStr (sk_version r));
         ("call_count", JNum (sk_call_count r));
         ("is_dynamic", JBool true)]
        ++ (if include_code then [("code", JStr (sk_code r))] else [])).

(** [category_filter and skill["category"] != category_filter] *)
Definition filtered_out (category_filter : json) (r : SkillRow) : bool :=
  truthy category_filter &&
  match category_filter with
  | JStr c => negb (String.eqb (sk_category r) c)
  | _ => true
  end.

(** [handle_list_skills(params)] *)
Definition handle_list_skills (params : json) (d : Db) : Result json * Db :=
  match py_get_default params "category" JNull,
        py_get_default params "include_code" (JBool false) with
  | Ok category_filter, Ok include_code =>
      match get_all_dynamic_skills d with
      | Raise e => (Raise e, d)
      | Ok rows =>
          let skills : list json :=
            ((core_skill_info <$> handler_names)
             ++ (dynamic_skill_info (truthy include_code)
                   <$> filter (fun row => negb (filtered_out category_filter row.2))
                              rows)) in
          (Ok (JObj [("success", JBool true);
                     ("count", JNum (Z.of_nat (List.length skills)));
                     ("skills", JArr skills)]), d)
      end
  | Raise e, _ => (Raise e, d)
  | _, Raise e => (Raise e, d)
  end.

Definition total_calls (r : StatRow) : Z :=
  (st_direct_calls r + st_indirect_calls r)%Z.

Definition stat_json (row : string * StatRow) : json :=
  let '(name, r) := row in
  JObj [("name", JStr name);
        ("is_core", JBool (st_is_core r));
        ("direct_calls", JNum (st_direct_calls r));
        ("indirect_calls", JNum (st_indirect_calls r));
        ("total_calls", JNum (total_calls r));
        ("last_called", from_option JStr JNull (st_last_called r));
        ("total_time_ms", JNum (st_total_time_ms r))].

(** [ORDER BY (direct_calls + indirect_calls) DESC] *)
Definition by_total_calls_desc (a b : string * StatRow) : Prop :=
  (total_calls b.2 <= total_calls a.2)%Z.

#[local] Instance by_total_calls_desc_dec a b : Decision (by_total_calls_desc a b).
Proof. unfold by_total_calls_desc. apply _. Defined.

(** [SELECT ... FROM skill_statistics], filtered by name or ordered by calls. *)
Definition select_statistics (name_filter : json) (s : Store)
    : Result (list (string * StatRow)) :=
  if truthy name_filter then
    match sql_bind name_filter with
    | BUnsupported => Raise (binding_error name_filter)
    | BNull => Ok []
    | BText key =>
        Ok (from_option (fun r => [(key, r)]) [] (skill_statistics s !! key))
    end
  else Ok (merge_sort by_total_calls_desc (map_to_list (skill_statistics s))).

(** [handle_get_skill_statistics(params)] *)
Definition handle_get_skill_statistics (params : json) (d : Db) : Result json * Db :=
  let d := init_db d in
  match py_get_default params "name" JNull with
  | Raise e => (Raise e, d)
  | Ok name_filter =>
      match select_statistics name_filter (tables d) with
      | Raise e => (Raise e, d)
      | Ok rows =>
          let stats := stat_json <$> rows in
          (Ok (JObj [("success", JBool true);
                     ("count", JNum (Z.of_nat (List.length stats)));
                     ("statistics", JArr stats)]), d)
      end
  end.

Definition edge_json (row : string * string * Z) : json :=
  let '(caller, callee, n) := row in
  JObj [("caller", JStr caller); ("callee", JStr callee); ("call_count", JNum n)].

(** [ORDER BY call_count DESC] *)
Definition by_call_count_desc (a b : string * string * Z) : Prop :=
  (b.2 <= a.2)%Z.

#[local] Instance by_call_count_desc_dec a b : Decision (by_call_count_desc a b).
Proof. unfold by_call_count_desc. apply _. Defined.

(** An optional [WHERE column = ?] condition: [None] when the filter is falsy
    and no condition is added. *)
Definition bind_filter (value : json) : Result (option Bound) :=
  if truthy value then
    match sql_bind value with
    | BUnsupported => Raise (binding_error value)
    | bound => Ok (Some bound)
    end
  else Ok None.

(** [column = ?]; a comparison with [NULL] selects no row. *)
Definition condition_holds (condition : option Bound) (column : string) : bool :=
  match condition with
  | None => true
  | Some (BText t) => bool_decide (column = t)
  | Some _ => false
  end.

(** [SELECT caller, callee, call_count FROM skill_call_graph ...] *)
Definition select_edges (caller_filter callee_filter : json) (s : Store)
    : Result (list (string * string * Z)) :=
  match bind_filter caller_filter, bind_filter callee_filter with
  | Raise e, _ => Raise e
  | _, Raise e => Raise e
  | Ok on_caller, Ok on_callee =>
      Ok (merge_sort by_call_count_desc
            (filter (fun row : string * string * Z =>
                       condition_holds on_caller row.1.1
                       && condition_holds on_callee row.1.2)
                    (map_to_list (skill_call_graph s))))
  end.

(** [handle_get_call_graph(params)] *)
Definition handle_get_call_graph (params : json) (d : Db) : Result json * Db :=
  let d := init_db d in
  match py_get_default params "caller" JNull,
        py_get_default params "callee" JNull with
  | Ok caller_filter, Ok callee_filter =>
      match select_edges caller_filter callee_filter (tables d) with
      | Raise e => (Raise e, d)
      | Ok rows =>
          let edges := edge_json <$> rows in
          (Ok (JObj [("success", JBool true);
                     ("count", JNum (Z.of_nat (List.length edges)));
                     ("edges", JArr edges)]), d)
      end
  | Raise e, _ => (Raise e, d)
  | _, Raise e => (Raise e, d)
  end.

End Registry.

Arguments mkWorld {H} w_db w_scene.
Arguments w_db {H} w.
Arguments w_scene {H} w.

(** ** The command server *)

Section Server.

Context (H : Host).

(** A handler of the static table, run on the host thread; [now] is the
    [CURRENT_TIMESTAMP] its own statements see. *)
Definition Handler : Type := json -> string -> World H -> Result json * World H.

Definition on_store (f : Db -> Result json * Db) : string -> World H -> Result json * World H :=
  fun _ w => let '(r, d) := f (w_db w) in (r, mkWorld d (w_scene w)).

(** The tail of [call_handler]: [if caller: track_indirect_handler_call(...)]. *)
Definition call_handler_tracking (d : Db) (c : TrackedCall) : Db :=
  if truthy_str (tc_caller c)
  then track_indirect_handler_call (tc_name c) (default "" (tc_caller c))
                                   (tc_elapsed_ms c) (tc_now c) d
  else d.

Definition run_scene_handler (name : string) : Handler :=
  fun params _ w =>
    let '(calls, r, scene') := scene_handler H name params (w_scene w) in
    (r, mkWorld (foldl call_handler_tracking (w_db w) calls) scene').

(** [self.handlers], as [_register_handlers] fills it. *)
Definition handlers (method : string) : option Handler :=
  if String.eqb method "register_skill" then
    Some (fun params now w =>
            let '(r, d) := handle_register_skill H params now (w_db w) in
            (r, mkWorld d (w_scene w)))
  else if String.eqb method "list_skills" then
    Some (fun params => on_store (handle_list_skills params))
  else if String.eqb method "unregister_skill" then
    Some (fun params => on_store (handle_unregister_skill H params))
  else if String.eqb method "get_skill_statistics" then
    Some (fun params => on_store (handle_get_skill_statistics H params))
  else if String.eqb method "get_call_graph" then
    Some (fun params => on_store (handle_get_call_graph H params))
  else if bool_decide (method ∈ scene_handler_names) then
    Some (run_scene_handler method)
  else None.

(** [self.handlers.get(method)] for a decoded [method]: a [list] or [dict] is
    unhashable, any other non-string is simply not a key. *)
Definition handlers_get (method : json) : Result (option (string * Handler)) :=
  match method with
  | JStr m => Ok ((fun h => (m, h)) <$> handlers m)
  | JArr _ | JObj _ => Raise (mkExn "TypeError" (runtime_message H "hash" method))
  | _ => Ok None
  end.

(** [BlenderAgentServer.__init__]: [_register_handlers] seeds the statistics. *)
Definition server_init (d : Db) : Db := register_core_handlers handler_names d.

Definition jsonrpc_result (id result : json) : json :=
  JObj [("jsonrpc", JStr "2.0"); ("id", id); ("result", result)].

Definition jsonrpc_error (id : json) (code : Z) (message : string) : json :=
  JObj [("jsonrpc", JStr "2.0"); ("id", id);
        ("error", JObj [("code", JNum code); ("message", JStr message)])].

(** What the closure [execute_in_main] shares with the network thread, and the
    world it acts on. *)
Record MainState := mkMainState {
  ms_world : World H;
  result_container : json;
  error_container : option string;
  done_event : bool
}.

(** What [method] resolved to. *)
Inductive Resolved : Type :=
  | Static (method : string) (handler : Handler)
  | Dynamic (dynamic_skill : Skill).

Definition set_done (st : MainState) : MainState :=
  mkMainState (ms_world st) (result_container st) (error_container st) true.

(** [execute_in_main]: the states the host thread passes through, one per
    stage (slot assignment, core-call tracking, [done_event.set()]). *)
Definition execute_in_main (target : Resolved) (params : json) (started : string)
    (clk : Clock) (st : MainState) : list MainState :=
  match target with
  | Static method handler =>
      match handler params started (ms_world st) with
      | (Ok result, w) =>
          let assigned := mkMainState w result (error_container st) false in
          let tracked :=
            mkMainState
              (mkWorld (track_core_handler_call method (clk_elapsed_ms clk)
                                                  (clk_now clk) (w_db w))
                       (w_scene w))
              result (error_container st) false in
          [assigned; tracked; set_done tracked]
      | (Raise e, w) =>
          let failed := mkMainState w (result_container st) (Some (str_exn e)) false in
          [failed; set_done failed]
      end
  | Dynamic dynamic_skill =>
      match execute_dynamic_skill H dynamic_skill params None clk (ms_world st) with
      | (Ok result, w) =>
          let assigned := mkMainState w result (error_container st) false in
          [assigned; set_done assigned]
      | (Raise e, w) =>
          let failed := mkMainState w (result_container st) (Some (str_exn e)) false in
          [failed; set_done failed]
      end
  end.

(** How far the host thread got with the task when
    [done_event.wait(timeout=30.0)] returned: through all of it, or through
    [stages_done] stages when the 30 seconds were over. *)
Inductive Progress : Type :=
  | Completes
  | Stalls (stages_done : nat).

(** The state the network thread reads after the wait. *)
Definition observed (p : Progress) (st0 : MainState) (trace : list MainState)
    : MainState :=
  match p with
  | Completes => List.last trace st0
  | Stalls n => List.last (take n trace) st0
  end.

(** Lines 250-253: the response built from the two slots. *)
Definition respond (request_id : json) (seen : MainState) : json :=
  if truthy_str (error_container seen)
  then jsonrpc_error request_id (-32603) (default "" (error_container seen))
  else jsonrpc_result request_id (result_container seen).

(** The environment of one request. *)
Record Tick := mkTick {
  tick_started : string;
  tick_clock : Clock;
  tick_wait : Progress
}.

(** The outcome of [_process_request]: the response, whether a task was handed
    to [bpy.app.timers.register], whether the wait ended by the signal, and the
    world once the task (if any) has run. *)
Record Outcome := mkOutcome {
  out_response : json;
  out_enqueued : bool;
  out_signalled : bool;
  out_world : World H
}.

Definition reply (response : json) (w : World H) : Outcome :=
  mkOutcome response false false w.

(** A decoded request that is not a [dict] fails in ["method" not in request],
    [request["method"]] or [request.get] with a [TypeError] or an
    [AttributeError]. *)
Definition not_a_dict (request : json) : Exn :=
  mkExn "TypeError" (runtime_message H "request" request).

(** The handler of [except Exception as e]. *)
Definition internal_error (e : Exn) (w : World H) : Outcome :=
  reply (jsonrpc_error JNull (-32603) (str_exn e)) w.

(** Lines 225-253: run the resolved call through the bridge.  The response is
    built from what the network thread sees when its wait returns; the task
    itself stays scheduled, and [out_world] is the world once it has run. *)
Definition bridge (t : Tick) (target : Resolved) (params request_id : json)
    (w : World H) : Outcome :=
  let st0 := mkMainState w JNull None false in
  let trace := execute_in_main target params (tick_started t) (tick_clock t) st0 in
  let seen := observed (tick_wait t) st0 trace in
  mkOutcome (respond request_id seen) true (done_event seen)
            (ms_world (List.last trace st0)).

(** Lines 215-223: the static table first, then the registry. *)
Definition resolve (method : json) (d : Db) : Result (option Resolved) :=
  match handlers_get method with
  | Raise e => Raise e
  | Ok (Some (name, handler)) => Ok (Some (Static name handler))
  | Ok None =>
      match get_dynamic_skill H method d with
      | Raise e => Raise e
      | Ok None => Ok None
      | Ok (Some dynamic_skill) => Ok (Some (Dynamic dynamic_skill))
      end
  end.

(** [_process_request(request_line)] *)
Definition _process_request (t : Tick) (request_line : string) (w : World H)
    : Outcome :=
  match json_loads H request_line with
  | None => reply (jsonrpc_error JNull (-32700) "Parse error") w
  | Some (JObj request) =>
      match assoc "method" request with
      | None =>
          reply (jsonrpc_error (default JNull (assoc "id" request)) (-32600)
                               "Invalid request") w
      | Some method =>
          let params := default (JObj []) (assoc "params" request) in
          let request_id := default JNull (assoc "id" request) in
          match resolve method (w_db w) with
          | Raise e => internal_error e w
          | Ok None =>
              reply (jsonrpc_error request_id (-32601)
                       ("Method not found: " +:+ py_str H method)) w
          | Ok (Some target) => bridge t target params request_id w
          end
      end
  | Some request => internal_error (not_a_dict request) w
  end.

(** [response["error"]["code"]] *)
Definition error_code (response : json) : option Z :=
  match response with
  | JObj fields =>
      match assoc "error" fields with
      | Some (JObj error) =>
          match assoc "code" error with
          | Some (JNum code) => Some code
          | _ => None
          end
      | _ => None
      end
  | _ => None
  end.

(** *** The connection loop *)

(** [c.isspace()] for a character of a [str]; a [string] holds the code points
    of the text, here those below 256. *)
Definition py_isspace (c : ascii) : bool :=
  let n := nat_of_ascii c in
  ((9 <=? n) && (n <=? 13) || (28 <=? n) && (n <=? 32)
   || (n =? 133) || (n =? 160))%nat.

Fixpoint lstrip (s : string) : string :=
  match s with
  | EmptyString => EmptyString
  | String c rest => if py_isspace c then lstrip rest else s
  end.

Fixpoint rstrip (s : string) : string :=
  match s with
  | EmptyString => EmptyString
  | String c rest =>
      match rstrip rest with
      | EmptyString => if py_isspace c then EmptyString else String c EmptyString
      | kept => String c kept
      end
  end.

(** [line.strip()] *)
Definition strip (line : string) : string := rstrip (lstrip line).

(** [line] consists of white space only. *)
Fixpoint only_whitespace (line : string) : bool :=
  match line with
  | EmptyString => true
  | String c rest => py_isspace c && only_whitespace rest
  end.

Definition newline : ascii := ascii_of_nat 10.

(** The lines the loop [while "\n" in buffer: line, buffer = buffer.split("\n", 1)]
    takes off the buffer, in order, and the buffer it leaves. *)
Fixpoint split_lines (buffer : string) : list string * string :=
  match buffer with
  | EmptyString => ([], EmptyString)
  | String c rest =>
      let '(lines, unfinished) := split_lines rest in
      if Ascii.eqb c newline then (EmptyString :: lines, unfinished)
      else match lines with
           | [] => ([], String c unfinished)
           | line :: later => (String c line :: later, unfinished)
           end
  end.

(** What [client.recv] returned: bytes that decode to [text], or bytes that
    are not UTF-8.  [Received ""] is the empty read of a closed peer. *)
Inductive Recv : Type :=
  | Received (text : string)
  | Undecodable.

(** The state of [_handle_client]: the world, the response lines written so
    far (oldest first) and the number of requests processed, which indexes the
    environment of the next one. *)
Record Conn := mkConn {
  conn_world : World H;
  conn_sent : list json;
  conn_requests : nat
}.

(** The body of the inner loop for one line (source lines 195-197). *)
Definition handle_line (env : nat -> Tick) (c : Conn) (line : string) : Conn :=
  if truthy (JStr (strip line)) then
    let out := _process_request (env (conn_requests c)) line (conn_world c) in
    mkConn (out_world out) (conn_sent c ++ [out_response out])
           (S (conn_requests c))
  else c.

(** [_handle_client(client)]: the reads of one connection until the peer
    closes or a read cannot be decoded; [buffer] is the unfinished line.
    [self.running] stays set and every [sendall] succeeds. *)
Fixpoint _handle_client (env : nat -> Tick) (reads : list Recv) (buffer : string)
    (c : Conn) : Conn :=
  match reads with
  | [] => c
  | Undecodable :: _ => c
  | Received data :: later =>
      if negb (truthy (JStr data)) then c
      else
        let '(lines, buffer') := split_lines (buffer +:+ data) in
        _handle_client env later buffer' (foldl (handle_line env) c lines)
  end.

End Server.

Arguments ms_world {H} m.
Arguments result_container {H} m.
Arguments error_container {H} m.
Arguments done_event {H} m.
Arguments mkMainState {H} ms_world result_container error_container done_event.
Arguments out_response {H} o.
Arguments out_enqueued {H} o.
Arguments out_signalled {H} o.
Arguments out_world {H} o.
Arguments mkOutcome {H} out_response out_enqueued out_signalled out_world.
Arguments conn_world {H} c.
Arguments conn_sent {H} c.
Arguments conn_requests {H} c.
Arguments mkConn {H} conn_world conn_sent conn_requests.
Arguments Static {H} method handler.
Arguments Dynamic {H} dynamic_skill.

(** ** A reference host

    The theorems below hold for every [Host].  [reference_host] is one host on
    which the model runs: a decoder for the fragment of JSON without escapes,
    fractions and exponents, an interpreter for three skill bodies, and three
    kinds of scene handler. *)

Module Reference.

Definition is_json_space (c : ascii) : bool :=
  let n := nat_of_ascii c in ((n =? 32) || (n =? 9) || (n =? 10) || (n =? 13))%nat.

Fixpoint skip_space (s : string) : string :=
  match s with
  | String c rest => if is_json_space c then skip_space rest else s
  | EmptyString => EmptyString
  end.

(** [expect word s]: [s] without its prefix [word]. *)
Fixpoint expect (word s : string) : option string :=
  match word, s with
  | EmptyString, _ => Some s
  | String a word', String b s' => if Ascii.eqb a b then expect word' s' else None
  | String _ _, EmptyString => None
  end.

Definition quote : ascii := ascii_of_nat 34.

(** The characters up to the closing quote. *)
Fixpoint read_string (s : string) : option (string * string) :=
  match s with
  | EmptyString => None
  | String c rest =>
      if Ascii.eqb c quote then Some (EmptyString, rest)
      else if Ascii.eqb c "\" then None
      else match read_string rest with
           | Some (text, after) => Some (String c text, after)
           | None => None
           end
  end.

Definition digit (c : ascii) : option Z :=
  let n := nat_of_ascii c in
  if ((48 <=? n) && (n <=? 57))%nat then Some (Z.of_nat (n - 48)) else None.

Fixpoint read_digits (acc : Z) (s : string) : Z * string :=
  match s with
  | String c rest =>
      match digit c with
      | Some k => read_digits (10 * acc + k)%Z rest
      | None => (acc, s)
      end
  | EmptyString => (acc, s)
  end.

Definition read_number (s : string) : option (Z * string) :=
  match s with
  | String c rest =>
      match digit c with
      | Some 0%Z => Some (0%Z, rest)
      | Some k => Some (read_digits k rest)
      | None => None
      end
  | EmptyString => None
  end.

(** [d[key] = v] on a [dict]. *)
Fixpoint dict_set (key : string) (v : json) (fields : list (string * json))
    : list (string * json) :=
  match fields with
  | [] => [(key, v)]
  | (k, old) :: rest =>
      if String.eqb k key then (k, v) :: rest else (k, old) :: dict_set key v rest
  end.

(** [s] without leading white space and without the character [c] that must
    follow it. *)
Definition after_char (c : ascii) (s : string) : option string :=
  match skip_space s with
  | String c' rest => if Ascii.eqb c' c then Some rest else None
  | EmptyString => None
  end.

Fixpoint parse_value (fuel : nat) (s : string) : option (json * string) :=
  match fuel with
  | O => None
  | S fuel =>
      match skip_space s with
      | EmptyString => None
      | String c rest as t =>
          if Ascii.eqb c "n" then (fun r => (JNull, r)) <$> expect "null" t
          else if Ascii.eqb c "t" then (fun r => (JBool true, r)) <$> expect "true" t
          else if Ascii.eqb c "f" then (fun r => (JBool false, r)) <$> expect "false" t
          else if Ascii.eqb c quote then
            (fun '(text, r) => (JStr text, r)) <$> read_string rest
          else if Ascii.eqb c "-" then
            (fun '(n, r) => (JNum (- n), r)) <$> read_number rest
          else if Ascii.eqb c "[" then
            match after_char "]" rest with
            | Some r => Some (JArr [], r)
            | None => parse_items fuel [] rest
            end
          else if Ascii.eqb c "{" then
            match after_char "}" rest with
            | Some r => Some (JObj [], r)
            | None => parse_members fuel [] rest
            end
          else (fun '(n, r) => (JNum n, r)) <$> read_number t
      end
  end
with parse_items (fuel : nat) (acc : list json) (s : string)
    : option (json * string) :=
  match fuel with
  | O => None
  | S fuel =>
      match parse_value fuel s with
      | Some (v, after) =>
          match after_char "," after with
          | Some r => parse_items fuel (acc ++ [v]) r
          | None =>
              (fun r => (JArr (acc ++ [v]), r)) <$> after_char "]" after
          end
      | None => None
      end
  end
with parse_members (fuel : nat) (acc : list (string * json)) (s : string)
    : option (json * string) :=
  match fuel with
  | O => None
  | S fuel =>
      match after_char quote s with
      | Some rest =>
          match read_string rest with
          | Some (key, after) =>
              match after_char ":" after with
              | Some r =>
                  match parse_value fuel r with
                  | Some (v, after') =>
                      match after_char "," after' with
                      | Some r' => parse_members fuel (dict_set key v acc) r'
                      | None =>
                          (fun r' => (JObj (dict_set key v acc), r'))
                            <$> after_char "}" after'
                      end
                  | None => None
                  end
              | None => None
              end
          | None => None
          end
      | None => None
      end
  end.

(** [json.loads] on the fragment: one value, surrounded by white space. *)
Definition loads (s : string) : option json :=
  match parse_value (S (String.length s)) s with
  | Some (v, rest) => if skip_space rest is EmptyString then Some v else None
  | None => None
  end.

Definition quoted (s : string) : string :=
  String quote (s +:+ String quote EmptyString).

(** [json.dumps] on the fragment. *)
Fixpoint dumps (v : json) : string :=
  match v with
  | JNull => "null"
  | JBool true => "true"
  | JBool false => "false"
  | JNum n => pretty n
  | JStr s => quoted s
  | JArr items =>
      "[" +:+ (fix go (items : list json) : string :=
                 match items with
                 | [] => EmptyString
                 | [item] => dumps item
                 | item :: later => dumps item +:+ ", " +:+ go later
                 end) items +:+ "]"
  | JObj fields =>
      "{" +:+ (fix go (fields : list (string * json)) : string :=
                 match fields with
                 | [] => EmptyString
                 | [(k, item)] => quoted k +:+ ": " +:+ dumps item
                 | (k, item) :: later =>
                     quoted k +:+ ": " +:+ dumps item +:+ ", " +:+ go later
                 end) fields +:+ "}"
  end.

(** [exec] for the bodies [result = params], [pass] and
    [raise ValueError('boom')]; any other body is a [SyntaxError] here. *)
Definition exec (code : string) (params : json) (scene : unit)
    : Result json * unit :=
  if String.eqb code "result = params" then (Ok params, scene)
  else if String.eqb code "pass" then (Ok JNull, scene)
  else if String.eqb code "raise ValueError('boom')"
  then (Raise (ValueError "boom"), scene)
  else (Raise (mkExn "SyntaxError" "invalid syntax"), scene).

Definition format (v : json) : string :=
  match v with
  | JNull => "None"
  | JBool true => "True"
  | JBool false => "False"
  | JStr s => s
  | JNum _ => "<int>"
  | JArr _ => "<list>"
  | JObj _ => "<dict>"
  end.

(** The scene handlers: [ping] as in the source, a compound
    [render_product_views] that calls two primitives through [call_handler],
    one of them twice, and handlers without output for the other names. *)
Definition scene_run (name : string) (params : json) (scene : unit)
    : list TrackedCall * Result json * unit :=
  if String.eqb name "ping" then
    ([], Ok (JObj [("status", JStr "ok");
                   ("message", JStr "Blender Agent is running")]), scene)
  else if String.eqb name "render_product_views" then
    ([mkTrackedCall "create_camera" (Some "render_product_views") 2 "t1";
      mkTrackedCall "render_image" (Some "render_product_views") 40 "t2";
      mkTrackedCall "render_image" (Some "render_product_views") 41 "t3"],
     Ok (JObj [("success", JBool true)]), scene)
  else ([], Ok JNull, scene).

Definition reference_host : Host :=
  {| Scene := unit;
     json_loads := loads;
     py_exec := exec;
     scene_handler := scene_run;
     py_format := format;
     sqlite_adapt := fun _ => None;
     runtime_message := fun operation v => operation +:+ ": " +:+ type_name v |}.

End Reference.

(** ** Runs of registry operations *)

(** The entry points that write to the store. *)
Inductive RegistryOp : Type :=
  | OpExecute (skill : Skill) (params : json) (caller : option string) (clk : Clock)
  | OpTrackCore (name : string) (elapsed_ms : Z) (now : string)
  | OpTrackIndirect (name caller : string) (elapsed_ms : Z) (now : string)
  | OpRegisterCore (handler_names : list string)
  | OpRegister (params : json) (now : string)
  | OpUnregister (params : json).

Section Runs.

Context (H : Host).

Definition on_db (f : Db -> Db) (w : World H) : World H :=
  mkWorld (f (w_db w)) (w_scene w).

Definition apply_op (w : World H) (op : RegistryOp) : World H :=
  match op with
  | OpExecute skill params caller clk =>
      (execute_dynamic_skill H skill params caller clk w).2
  | OpTrackCore name elapsed_ms now =>
      on_db (track_core_handler_call name elapsed_ms now) w
  | OpTrackIndirect name caller elapsed_ms now =>
      on_db (track_indirect_handler_call name caller elapsed_ms now) w
  | OpRegisterCore handler_names =>
      on_db (register_core_handlers handler_names) w
  | OpRegister params now =>
      on_db (fun d => (handle_register_skill H params now d).2) w
  | OpUnregister params =>
      on_db (fun d => (handle_unregister_skill H params d).2) w
  end.

Definition run_ops (ops : list RegistryOp) (w : World H) : World H :=
  foldl apply_op w ops.

(** The statement of an accepted [handle_register_skill(params)]. *)
Definition register_sql (params : json) (now : string) : list Sql :=
  match params with
  | JObj fields =>
      let name := default JNull (assoc "name" fields) in
      let category := default (JStr "standard") (assoc "category" fields) in
      let description := default (JStr "") (assoc "description" fields) in
      let skill_params := default (JObj []) (assoc "parameters" fields) in
      let code := default JNull (assoc "code" fields) in
      let version := default (JStr "1.0.0") (assoc "version" fields) in
      if truthy name && truthy code && is_category category then
        match sql_bind H name, sql_bind H category, sql_bind H description,
              sql_bind H code, sql_bind H version with
        | BText n, BText c, BText desc, BText src, BText ver =>
            [ReplaceSkill n c desc skill_params src ver now]
        | _, _, _, _, _ => []
        end
      else []
  | _ => []
  end.

(** The statement of [handle_unregister_skill(params)] once it has a name. *)
Definition unregister_sql (params : json) : list Sql :=
  match params with
  | JObj fields =>
      let name := default JNull (assoc "name" fields) in
      if truthy name then
        match sql_bind H name with
        | BText key => [DeleteSkill key]
        | _ => []
        end
      else []
  | _ => []
  end.

(** The statements an operation executes when it runs in [w] on existing
    tables. *)
Definition op_sql (w : World H) (op : RegistryOp) : list Sql :=
  match op with
  | OpExecute skill params caller clk =>
      match (py_exec H (skill_code skill) params (w_scene w)).1 with
      | Ok _ => execution_sql (skill_name skill) caller (clk_now clk)
                              (clk_elapsed_ms clk)
      | Raise _ => []
      end
  | OpTrackCore name elapsed_ms now =>
      [UpsertStatistics name true 1 0 now elapsed_ms]
  | OpTrackIndirect name caller elapsed_ms now =>
      [UpsertStatistics name true 0 1 now elapsed_ms; UpsertEdge caller name]
  | OpRegisterCore handler_names => InsertIgnoreStatistics <$> handler_names
  | OpRegister params now => register_sql params now
  | OpUnregister params => unregister_sql params
  end.

(** The statements of a whole run, in the order they are executed. *)
Fixpoint history (ops : list RegistryOp) (w : World H) : list Sql :=
  match ops with
  | [] => []
  | op :: later => op_sql w op ++ history later (apply_op w op)
  end.

End Runs.

(** [q] increments the statistics row of [name]. *)
Definition increments (name : string) (q : Sql) : bool :=
  match q with
  | UpsertStatistics n _ _ _ _ _ => bool_decide (n = name)
  | _ => false
  end.

(** How many times the row of [name] has been incremented by [log]. *)
Definition times_incremented (name : string) (log : list Sql) : nat :=
  List.length (List.filter (increments name) log).

(** Every row's calls add up to its increments. *)
Definition calls_counted (log : list Sql) (s : Store) : Prop :=
  forall name row,
    skill_statistics s !! name = Some row ->
    (st_direct_calls row + st_indirect_calls row)%Z
    = Z.of_nat (times_incremented name log).

(** Every edge's callee has a statistics row. *)
Definition callees_known (s : Store) : Prop :=
  forall caller callee n,
    skill_call_graph s !! (caller, callee) = Some n ->
    is_Some (skill_statistics s !! callee).

Definition registry_invariant (log : list Sql) (s : Store) : Prop :=
  calls_counted log s /\ callees_known s.

(** What the inductive argument carries: a name without a row has never been
    incremented. *)
Definition calls_balanced (log : list Sql) (s : Store) : Prop :=
  forall name,
    from_option total_calls 0%Z (skill_statistics s !! name)
    = Z.of_nat (times_incremented name log).

(** [q] may be executed on [s]: an upsert adds one call, and an edge names a
    callee that already has its row. *)
Definition admissible (s : Store) (q : Sql) : Prop :=
  match q with
  | UpsertStatistics _ _ direct indirect _ _ => (direct + indirect = 1)%Z
  | UpsertEdge _ callee => is_Some (skill_statistics s !! callee)
  | _ => True
  end.

Fixpoint admissible_run (s : Store) (qs : list Sql) : Prop :=
  match qs with
  | [] => True
  | q :: later => admissible s q /\ admissible_run (execute_sql q s) later
  end.

(** ** Calls between handlers ([handlers/__init__.py]) *)

Section Calls.

Context (H : Host).

(** [call_handler(name, params, caller)]: the handler of the static table is
    run, and its call is recorded as an indirect one when a caller is named.
    [started] and [clk] are the clock readings of the call. *)
Definition call_handler (name : string) (params : json) (caller : option string)
    (started : string) (clk : Clock) (w : World H) : Result json * World H :=
  match handlers H name with
  | None => (Raise (ValueError ("Handler not found: " +:+ name)), w)
  | Some handler =>
      match handler params started w with
      | (Raise e, w') => (Raise e, w')
      | (Ok result, w') =>
          (Ok result,
           mkWorld (call_handler_tracking (w_db w')
                      (mkTrackedCall name caller (clk_elapsed_ms clk) (clk_now clk)))
                   (w_scene w'))
      end
  end.

(** The call [execute_in_main] makes for a resolved method. *)
Definition run_target (target : Resolved H) (params : json) (started : string)
    (clk : Clock) (w : World H) : Result json * World H :=
  match target with
  | Static _ handler => handler params started w
  | Dynamic dynamic_skill => execute_dynamic_skill H dynamic_skill params None clk w
  end.

End Calls.

(** [fundamentals.handle_ping(params)] *)
Definition handle_ping (params : json) : json :=
  JObj [("status", JStr "ok"); ("message", JStr "Blender Agent is running")].

(** ** The text of a connection *)

Fixpoint has_newline (s : string) : bool :=
  match s with
  | EmptyString => false
  | String c rest => Ascii.eqb c newline || has_newline rest
  end.

(** [lines], each followed by a line feed, and then [rest]. *)
Definition join_lines (lines : list string) (rest : string) : string :=
  foldr (fun line text => line +:+ String newline text) rest lines.

(** The text [_handle_client] has received when its loop ends: the reads up to
    the first empty one or the first one that does not decode. *)
Fixpoint received (reads : list Recv) : string :=
  match reads with
  | [] => EmptyString
  | Undecodable :: _ => EmptyString
  | Received data :: later =>
      if negb (truthy (JStr data)) then EmptyString else data +:+ received later
  end.

(** The lines that are passed to [_process_request]. *)
Definition requests (lines : list string) : list string :=
  List.filter (fun line => negb (only_whitespace line)) lines.

(** ** Response envelopes *)

(** The error codes the server uses. *)
Definition response_codes : list Z := [-32700; -32600; -32601; -32603]%Z.

(** A JSON-RPC response: a result or an error, never both. *)
Inductive Envelope : json -> Prop :=
  | envelope_result id result : Envelope (jsonrpc_result id result)
  | envelope_error id code message :
      code ∈ response_codes -> Envelope (jsonrpc_error id code message).

(** [response["id"]] *)
Definition response_id (response : json) : option json :=
  match response with
  | JObj fields => assoc "id" fields
  | _ => None
  end.

(** What a filter of a query lets through: every value when the filter is
    falsy, the text it names otherwise. *)
Definition passes (value : json) (column : string) : Prop :=
  truthy value = false \/ value = JStr column.

(** ** Growth of the statistics *)

(** A statistics row and a later state of it: the same kind, no counter
    lower. *)
Definition grows (r r' : StatRow) : Prop :=
  st_is_core r' = st_is_core r
  /\ (st_direct_calls r <= st_direct_calls r')%Z
  /\ (st_indirect_calls r <= st_indirect_calls r')%Z.

(** An upsert as the module issues it: one direct or one indirect call. *)
Definition counts_one_call (q : Sql) : Prop :=
  match q with
  | UpsertStatistics _ _ direct indirect _ _ =>
      (direct = 1 /\ indirect = 0)%Z \/ (direct = 0 /\ indirect = 1)%Z
  | _ => True
  end.

(** ** The client ([blender_agent/protocol.py], [blender_agent/blender_client.py]) *)

Record BlenderRequest := mkBlenderRequest {
  req_id : string;
  req_method : string;
  req_params : json
}.

(** [BlenderRequest.to_dict] *)
Definition to_dict (request : BlenderRequest) : json :=
  JObj [("jsonrpc", JStr "2.0");
        ("id", JStr (req_id request));
        ("method", JStr (req_method request));
        ("params", req_params request)].

(** [result] and [error] are [JNull] for Python's [None]. *)
Record BlenderResponse := mkBlenderResponse {
  resp_id : json;
  resp_result : json;
  resp_error : json
}.

(** [BlenderResponse.from_dict(data)] *)
Definition from_dict (data : json) : Result BlenderResponse :=
  match py_get_default data "id" (JStr ""),
        py_get_default data "result" JNull,
        py_get_default data "error" JNull with
  | Ok id, Ok result, Ok error => Ok (mkBlenderResponse id result error)
  | Raise e, _, _ => Raise e
  | _, Raise e, _ => Raise e
  | _, _, Raise e => Raise e
  end.

(** [BlenderResponse.is_error]: [self.error is not None]. *)
Definition is_error (response : BlenderResponse) : bool :=
  if resp_error response is JNull then false else true.

(** The request [BlenderClient.send_request(method, params)] writes, as a
    [dict]; [id] is the [uuid4] it drew and [JNull] an omitted [params]. *)
Definition send_request_message (id method : string) (params : json) : json :=
  to_dict (mkBlenderRequest id method (if truthy params then params else JObj [])).

Section Client.

Context (H : Host).

(** [BlenderClient.send_request], from the decoded response on (source lines
    133-142): the result, or the exception raised for an error response. *)
Definition send_request_result (response_data : json) : Result json :=
  match from_dict response_data with
  | Raise e => Raise e
  | Ok response =>
      if is_error response then
        match py_get_default (resp_error response) "code" (JStr "unknown"),
              py_get_default (resp_error response) "message" (JStr "Unknown error") with
        | Ok code, Ok message =>
            Raise (mkExn "Exception"
                     ("Blender error (" +:+ py_str H code +:+ "): "
                      +:+ py_str H message))
        | Raise e, _ => Raise e
        | _, Raise e => Raise e
        end
      else Ok (resp_result response)
  end.

(** [BlenderClient.ping], from the decoded response on. *)
Definition ping (response_data : json) : bool :=
  match send_request_result response_data with
  | Ok (JStr result) => String.eqb result "pong"
  | _ => false
  end.

(** [SkillExecutor._send_request], from the decoded response on
    ([skill_executor.py], lines 118-123). *)
Definition _send_request_result (response : json) : Result json :=
  match response with
  | JObj fields =>
      match assoc "error" fields with
      | Some error =>
          match py_get_default error "message" (JStr "Unknown error") with
          | Ok message => Raise (mkExn "Exception" (py_str H message))
          | Raise e => Raise e
          end
      | None => Ok (default JNull (assoc "result" fields))
      end
  | _ => Raise (mkExn "TypeError" (runtime_message H "response" response))
  end.

End Client.

(** [method_map] of [call_tool] ([blender_agent/server.py]): the method the
    MCP server forwards a tool to. *)
Definition method_map : list (string * string) :=
  [("blender_get_scene_info", "get_scene_info");
   ("blender_create_object", "create_object");
   ("blender_delete_object", "delete_object");
   ("blender_transform_object", "transform_object");
   ("blender_set_material", "set_material");
   ("blender_render", "render");
   ("blender_execute_python", "execute_python");
   ("blender_get_version", "get_version")].

(** ** Example data on the reference host *)

Module Examples.

Import Reference.

Definition started : World reference_host :=
  @mkWorld reference_host (server_init NoFile) tt.

(** Every task completes within the bound, 7 ms after it started. *)
Definition prompt : Tick :=
  mkTick "2026-01-01 00:00:00" (mkClock "2026-01-01 00:00:01" 7) Completes.

(** The host thread has not reached the task when the bound elapses. *)
Definition stalled : Tick :=
  mkTick "2026-01-01 00:00:00" (mkClock "2026-01-01 00:00:31" 7) (Stalls 0).

Definition always (t : Tick) : nat -> Tick := fun _ => t.

Definition request (id method : string) (params : json) : list (string * json) :=
  [("jsonrpc", JStr "2.0"); ("id", JStr id); ("method", JStr method);
   ("params", params)].

Definition request_line (id method : string) (params : json) : string :=
  dumps (JObj (request id method params)).

Definition echo_registration : json :=
  JObj [("name", JStr "echo"); ("code", JStr "result = params")].

Definition boom_registration : json :=
  JObj [("name", JStr "boom"); ("code", JStr "raise ValueError('boom')")].

Definition register (registration : json) (w : World reference_host)
    : World reference_host :=
  @mkWorld reference_host
    (handle_register_skill reference_host registration "2026-01-01 00:00:00"
                           (w_db w)).2
    (w_scene w).

(** What [register_skill] answers for a skill of category "standard". *)
Definition accepted (name version : string) : json :=
  JObj [("success", JBool true);
        ("name", JStr name);
        ("category", JStr "standard");
        ("version", JStr version);
        ("message", JStr ("Skill '" +:+ name +:+ "' registered"))].

Definition x_is_1 : json := JObj [("x", JNum 1)].

Definition end_of_line : string := String newline EmptyString.

End Examples.

(** ** A host whose skill code can fail without a message *)

Module Cases.

Import Reference.

(** [exec] with one more body: [raise ValueError()], whose [str(e)] is empty. *)
Definition exec_bare (code : string) (params : json) (scene : unit)
    : Result json * unit :=
  if String.eqb code "raise ValueError()" then (Raise (ValueError ""), scene)
  else exec code params scene.

Definition bare_host : Host :=
  {| Scene := unit;
     json_loads := loads;
     py_exec := exec_bare;
     scene_handler := scene_run;
     py_format := format;
     sqlite_adapt := fun _ => None;
     runtime_message := fun operation v => operation +:+ ": " +:+ type_name v |}.

Definition mute_registration : json :=
  JObj [("name", JStr "mute"); ("code", JStr "raise ValueError()")].

End Cases.

(** * Verification *)

(** ** The statistics invariant (runs of registry operations) *)

Lemma times_incremented_app name log qs :
  times_incremented name (log ++ qs)
  = (times_incremented name log + times_incremented name qs)%nat.
Proof.
  unfold times_incremented. by rewrite List.filter_app, List.length_app.
Qed.

Lemma run_sql_app qs qs' s : run_sql (qs ++ qs') s = run_sql qs' (run_sql qs s).
Proof. unfold run_sql. apply foldl_app. Qed.

Lemma calls_balanced_counted log s : calls_balanced log s -> calls_counted log s.
Proof.
  intros Hbal name row Hrow. specialize (Hbal name).
  rewrite Hrow in Hbal. exact Hbal.
Qed.

Lemma execute_sql_balanced log s q :
  calls_balanced log s -> admissible s q ->
  calls_balanced (log ++ [q]) (execute_sql q s).
Proof.
  intros Hbal Hq name. specialize (Hbal name).
  rewrite times_incremented_app.
  destruct q as [n c d p src v now | n | n | n | n core direct indirect now ms | c n];
    unfold times_incremented in *; simpl in *.
  - lia.
  - lia.
  - lia.
  - destruct (skill_statistics s !! n) eqn:Hn; simpl; [lia|].
    destruct (decide (n = name)) as [->|Hne].
    + rewrite lookup_insert_eq. rewrite Hn in Hbal. unfold total_calls. simpl in *. lia.
    + rewrite lookup_insert_ne by done. lia.
  - case_bool_decide as Hname; simpl.
    + subst n. rewrite lookup_insert_eq. simpl.
      destruct (skill_statistics s !! name) as [r|]; simpl in *;
        unfold total_calls in *; simpl; lia.
    + rewrite lookup_insert_ne by done. lia.
  - lia.
Qed.

Lemma execute_sql_callees s q :
  callees_known s -> admissible s q -> callees_known (execute_sql q s).
Proof.
  intros Hknown Hq caller callee k.
  destruct q as [n c d p src v now | n | n | n | n core direct indirect now ms | c n];
    simpl in *; try apply Hknown.
  - destruct (skill_statistics s !! n) eqn:Hn; simpl; [apply Hknown|].
    intros Hedge. destruct (decide (n = callee)) as [->|Hne].
    + rewrite lookup_insert_eq. eauto.
    + rewrite lookup_insert_ne by done. eauto.
  - intros Hedge. destruct (decide (n = callee)) as [->|Hne].
    + rewrite lookup_insert_eq. eauto.
    + rewrite lookup_insert_ne by done. eauto.
  - intros Hedge. destruct (decide ((c, n) = (caller, callee))) as [Heq|Hne].
    + by simplify_eq.
    + rewrite lookup_insert_ne in Hedge by done. eauto.
Qed.

Lemma admissible_run_app s qs qs' :
  admissible_run s qs -> admissible_run (run_sql qs s) qs' ->
  admissible_run s (qs ++ qs').
Proof.
  revert s. induction qs as [|q qs IH]; intros s; simpl; [done|].
  intros [Hq Hqs] Hqs'. split; [done|]. by apply IH.
Qed.

(** The invariant holds after every statement of an admissible run. *)
Lemma admissible_run_invariant qs : forall log s n,
  calls_balanced log s -> callees_known s -> admissible_run s qs ->
  calls_balanced (log ++ take n qs) (run_sql (take n qs) s)
  /\ callees_known (run_sql (take n qs) s).
Proof.
  induction qs as [|q qs IH]; intros log s n Hbal Hknown Hrun.
  - rewrite take_nil, app_nil_r. done.
  - destruct n as [|n]; simpl.
    + rewrite app_nil_r. done.
    + destruct Hrun as [Hq Hrun].
      replace (log ++ q :: take n qs) with ((log ++ [q]) ++ take n qs)
        by (by rewrite <- app_assoc).
      apply IH; [by apply execute_sql_balanced | by apply execute_sql_callees | done].
Qed.

Lemma execution_sql_admissible s skill_name caller now elapsed_ms :
  admissible_run s (execution_sql skill_name caller now elapsed_ms).
Proof.
  unfold execution_sql.
  destruct caller as [c|]; simpl.
  - destruct (negb (String.eqb c "")); simpl; repeat split; try lia.
    rewrite lookup_insert_eq. eauto.
  - repeat split; lia.
Qed.

Lemma seeding_admissible names s :
  admissible_run s (InsertIgnoreStatistics <$> names).
Proof. revert s. induction names as [|n names IH]; intros s; simpl; auto. Qed.

Lemma register_sql_admissible H params now s :
  admissible_run s (register_sql H params now).
Proof.
  unfold register_sql. repeat case_match; simpl; auto.
Qed.

Lemma unregister_sql_admissible H params s :
  admissible_run s (unregister_sql H params).
Proof.
  unfold unregister_sql. repeat case_match; simpl; auto.
Qed.

Lemma op_sql_admissible H (w : World H) op s : admissible_run s (op_sql H w op).
Proof.
  destruct op as [skill params caller clk | name ms now | name caller ms now
                 | names | params now | params]; simpl.
  - destruct (py_exec H (skill_code skill) params (w_scene w)).1;
      [apply execution_sql_admissible | done].
  - repeat split; lia.
  - repeat split; try lia. rewrite lookup_insert_eq. eauto.
  - apply seeding_admissible.
  - apply register_sql_admissible.
  - apply unregister_sql_admissible.
Qed.

Lemma handle_register_skill_ready H params now s :
  (handle_register_skill H params now (Ready s)).2
  = Ready (run_sql (register_sql H params now) s).
Proof.
  unfold handle_register_skill, register_sql.
  destruct params as [| | | | |fields]; simpl; try done.
  destruct (truthy (default JNull (assoc "name" fields))); simpl; [|done].
  destruct (truthy (default JNull (assoc "code" fields))); simpl; [|done].
  destruct (is_category (default (JStr "standard") (assoc "category" fields)));
    simpl; [|done].
  repeat case_match; simplify_eq; done.
Qed.

Lemma handle_unregister_skill_ready H params s :
  (handle_unregister_skill H params (Ready s)).2
  = Ready (run_sql (unregister_sql H params) s).
Proof.
  unfold handle_unregister_skill, unregister_sql.
  destruct params as [| | | | |fields]; simpl; try done.
  destruct (truthy (default JNull (assoc "name" fields))); simpl; [|done].
  repeat case_match; simplify_eq; done.
Qed.

Lemma apply_op_ready H (w : World H) op s :
  w_db w = Ready s ->
  w_db (apply_op H w op) = Ready (run_sql (op_sql H w op) s).
Proof.
  intros Hdb.
  destruct op as [skill params caller clk | name ms now | name caller ms now
                 | names | params now | params]; simpl; rewrite ?Hdb.
  - unfold execute_dynamic_skill.
    destruct (py_exec H (skill_code skill) params (w_scene w)) as [[r|e] scene'];
      simpl; by rewrite Hdb.
  - done.
  - done.
  - done.
  - apply handle_register_skill_ready.
  - apply handle_unregister_skill_ready.
Qed.

Lemma run_ops_ready H ops : forall (w : World H) s,
  w_db w = Ready s ->
  w_db (run_ops H ops w) = Ready (run_sql (history H ops w) s).
Proof.
  induction ops as [|op ops IH]; intros w s Hdb; simpl; [done|].
  rewrite run_sql_app. apply IH. by apply apply_op_ready.
Qed.

Lemma history_admissible H ops : forall (w : World H) s,
  w_db w = Ready s -> admissible_run s (history H ops w).
Proof.
  induction ops as [|op ops IH]; intros w s Hdb; simpl; [done|].
  apply admissible_run_app; [apply op_sql_admissible|].
  apply IH. by apply apply_op_ready.
Qed.

(** C3: along every run of registry operations on a freshly created database,
    after each statement (and so in every committed store) the direct and
    indirect calls of every statistics row add up to the number of times the
    row has been incremented, and every call-graph edge names a callee whose
    statistics row already exists.  The store the run ends in is the replay of
    its statements. *)
Theorem statistics_count_increments_and_rows_precede_edges
    (H : Host) (ops : list RegistryOp) (scene : Scene H) :
  let start := mkWorld (init_db NoFile) scene in
  let log := history H ops start in
  w_db (run_ops H ops start) = Ready (run_sql log empty_store)
  /\ forall n, registry_invariant (take n log) (run_sql (take n log) empty_store).
Proof.
  intros start log. split.
  - by apply run_ops_ready.
  - intros n.
    assert (Hrun : admissible_run empty_store log) by by apply history_admissible.
    destruct (admissible_run_invariant log [] empty_store n) as [Hbal Hknown];
      [ | | done | ].
    + intros name. simpl. by rewrite lookup_empty.
    + intros caller callee k Hedge. simpl in Hedge.
      by rewrite lookup_empty in Hedge.
    + split; [by apply calls_balanced_counted | done].
Qed.

(** ** Framing: blank lines and lines that do not parse *)

Lemma lstrip_only_whitespace line :
  only_whitespace line = true -> lstrip line = EmptyString.
Proof.
  induction line as [|c rest IH]; simpl; [done|].
  intros [Hc Hrest]%andb_prop. rewrite Hc. by apply IH.
Qed.

Lemma strip_only_whitespace line :
  only_whitespace line = true -> strip line = EmptyString.
Proof. intros Hline. unfold strip. by rewrite lstrip_only_whitespace. Qed.

(** [lstrip] stops at the first character that is not white space. *)
Lemma lstrip_content line :
  only_whitespace line = false ->
  exists c rest, lstrip line = String c rest /\ py_isspace c = false.
Proof.
  induction line as [|c rest IH]; simpl; [done|].
  destruct (py_isspace c) eqn:Hc; simpl; [exact IH|].
  intros _. by exists c, rest.
Qed.

Lemma rstrip_content c rest :
  py_isspace c = false -> rstrip (String c rest) <> EmptyString.
Proof. intros Hc. simpl. rewrite Hc. by destruct (rstrip rest). Qed.

Lemma strip_content line :
  only_whitespace line = false -> truthy (JStr (strip line)) = true.
Proof.
  intros (c & rest & Hl & Hc)%lstrip_content. unfold strip. rewrite Hl.
  pose proof (rstrip_content c rest Hc) as Hne.
  unfold truthy. by destruct (rstrip (String c rest)).
Qed.

Lemma handle_line_blank H env (c : Conn H) line :
  only_whitespace line = true -> handle_line H env c line = c.
Proof.
  intros Hline. unfold handle_line. by rewrite strip_only_whitespace.
Qed.

Lemma handle_line_content H env (c : Conn H) line :
  only_whitespace line = false ->
  handle_line H env c line
  = let out := _process_request H (env (conn_requests c)) line (conn_world c) in
    mkConn (out_world out) (conn_sent c ++ [out_response out])
           (S (conn_requests c)).
Proof.
  intros Hline. unfold handle_line. by rewrite strip_content.
Qed.

(** One read: the complete lines of the buffer are handled in order. *)
Lemma _handle_client_lines H env reads buffer data (c : Conn H) before line after
    buffer' :
  data <> EmptyString ->
  split_lines (buffer +:+ data) = (before ++ line :: after, buffer') ->
  _handle_client H env (Received data :: reads) buffer c
  = _handle_client H env reads buffer'
      (foldl (handle_line H env)
             (handle_line H env (foldl (handle_line H env) c before) line) after).
Proof.
  intros Hdata Hsplit. simpl. rewrite Hsplit.
  destruct data; [done|]. simpl. by rewrite foldl_app.
Qed.

(** C8: a received line of white space only is skipped without a response,
    and the loop goes on with the lines and reads that follow; a line with
    other content gets exactly one response. *)
Theorem blank_line_gets_no_response H env reads buffer data (c : Conn H) before
    line after buffer' :
  data <> EmptyString ->
  split_lines (buffer +:+ data) = (before ++ line :: after, buffer') ->
  let reached := foldl (handle_line H env) c before in
  (only_whitespace line = true ->
     handle_line H env reached line = reached
     /\ _handle_client H env (Received data :: reads) buffer c
        = _handle_client H env reads buffer'
            (foldl (handle_line H env) reached after))
  /\ (only_whitespace line = false ->
        exists response,
          conn_sent (handle_line H env reached line)
          = conn_sent reached ++ [response]).
Proof.
  intros Hdata Hsplit reached. split.
  - intros Hline. split; [by apply handle_line_blank|].
    rewrite (_handle_client_lines H env reads buffer data c before line after
               buffer') by done.
    fold reached. by rewrite handle_line_blank.
  - intros Hline. rewrite handle_line_content by done. simpl. eauto.
Qed.

(** C6 (as amended): a received line with content other than white space that
    is not valid JSON is answered with one response whose error code is
    -32700; the world is untouched and the loop goes on with the lines and
    reads that follow. *)
Theorem parse_error_keeps_connection H env reads buffer data (c : Conn H) before
    line after buffer' :
  data <> EmptyString ->
  split_lines (buffer +:+ data) = (before ++ line :: after, buffer') ->
  only_whitespace line = false ->
  json_loads H line = None ->
  let reached := foldl (handle_line H env) c before in
  let answered := handle_line H env reached line in
  (exists response,
      conn_sent answered = conn_sent reached ++ [response]
      /\ error_code response = Some (-32700)%Z)
  /\ conn_world answered = conn_world reached
  /\ _handle_client H env (Received data :: reads) buffer c
     = _handle_client H env reads buffer'
         (foldl (handle_line H env) answered after).
Proof.
  intros Hdata Hsplit Hline Hloads reached answered.
  assert (Hanswered : answered
                      = mkConn (conn_world reached)
                          (conn_sent reached
                           ++ [jsonrpc_error JNull (-32700) "Parse error"])
                          (S (conn_requests reached))).
  { unfold answered. rewrite handle_line_content by done.
    unfold _process_request. by rewrite Hloads. }
  split; [|split].
  - rewrite Hanswered. simpl. eauto.
  - by rewrite Hanswered.
  - by rewrite (_handle_client_lines H env reads buffer data c before line after
                  buffer').
Qed.

(** ** Dispatch *)

(** A name that is neither in the static table nor in [dynamic_skills]
    resolves to nothing, whether or not the database file exists yet. *)
Lemma resolve_unregistered H name d :
  handlers H name = None ->
  d <> NoTables ->
  dynamic_skills (tables d) !! name = None ->
  resolve H (JStr name) d = Ok None.
Proof.
  intros Hstatic Hd Hrow. unfold resolve. simpl. rewrite Hstatic. simpl.
  destruct d as [| |s]; [done|done|]. simpl in *. by rewrite Hrow.
Qed.

(** C5: a request whose method resolves neither in the static table nor in the
    registry is answered with error code -32601; no task is handed to the host
    thread and the world is the one the request found. *)
Theorem unknown_method_is_rejected_without_bridge H t line (w : World H) request
    method :
  json_loads H line = Some (JObj request) ->
  assoc "method" request = Some method ->
  resolve H method (w_db w) = Ok None ->
  let out := _process_request H t line w in
  error_code (out_response out) = Some (-32601)%Z
  /\ out_response out
     = jsonrpc_error (default JNull (assoc "id" request)) (-32601)
         ("Method not found: " +:+ py_str H method)
  /\ out_enqueued out = false
  /\ out_world out = w.
Proof.
  intros Hloads Hmethod Hresolve out. unfold out, _process_request.
  rewrite Hloads, Hmethod, Hresolve. done.
Qed.

(** ** The bridge *)

Lemma _process_request_resolved H t line (w : World H) request method target :
  json_loads H line = Some (JObj request) ->
  assoc "method" request = Some method ->
  resolve H method (w_db w) = Ok (Some target) ->
  _process_request H t line w
  = bridge H t target (default (JObj []) (assoc "params" request))
           (default JNull (assoc "id" request)) w.
Proof.
  intros Hloads Hmethod Hresolve. unfold _process_request.
  by rewrite Hloads, Hmethod, Hresolve.
Qed.

(** Every run of [execute_in_main] ends with the completion signal. *)
Lemma execute_in_main_signals H target params started clk (st : MainState H) :
  done_event (List.last (execute_in_main H target params started clk st) st) = true.
Proof.
  unfold execute_in_main. repeat case_match; done.
Qed.

(** C2: when the wait ends without the signal, the response is built from the
    slots as they are; with both slots empty it is the success envelope with a
    null result, the response of a run that completed with no output. *)
Theorem elapsed_wait_answers_from_slots H t t' line (w : World H) request method
    target :
  json_loads H line = Some (JObj request) ->
  assoc "method" request = Some method ->
  resolve H method (w_db w) = Ok (Some target) ->
  let params := default (JObj []) (assoc "params" request) in
  let request_id := default JNull (assoc "id" request) in
  let st0 := mkMainState w JNull None false in
  let trace := execute_in_main H target params (tick_started t) (tick_clock t) st0 in
  let seen := observed H (tick_wait t) st0 trace in
  let out := _process_request H t line w in
  done_event seen = false ->
  out_enqueued out = true
  /\ out_signalled out = false
  /\ out_response out = respond H request_id seen
  /\ (result_container seen = JNull -> error_container seen = None ->
        out_response out = jsonrpc_result request_id JNull
        /\ (tick_wait t' = Completes ->
            let final :=
              List.last (execute_in_main H target params (tick_started t')
                                         (tick_clock t') st0) st0 in
            result_container final = JNull -> error_container final = None ->
            out_signalled (_process_request H t' line w) = true
            /\ out_response (_process_request H t' line w) = out_response out)).
Proof.
  intros Hloads Hmethod Hresolve params request_id st0 trace seen out Hwait.
  unfold out.
  rewrite (_process_request_resolved H t line w request method target) by done.
  unfold bridge. simpl. fold params request_id st0 trace seen.
  split; [done|]. split; [done|]. split; [done|].
  intros Hresult Herror.
  assert (Hempty : respond H request_id seen = jsonrpc_result request_id JNull).
  { unfold respond. by rewrite Herror, Hresult. }
  rewrite Hempty. split; [done|].
  intros Ht' Hfinal_result Hfinal_error.
  rewrite (_process_request_resolved H t' line w request method target) by done.
  unfold bridge. simpl. fold params request_id st0. rewrite Ht'. simpl.
  split.
  - apply execute_in_main_signals.
  - unfold respond. by rewrite Hfinal_error, Hfinal_result.
Qed.

(** ** Failing skill code *)

(** C1 (as amended): when the code of a dynamic skill raises, the exception
    leaves [execute_dynamic_skill] and the store is left as it was: no call
    and no time are recorded.  A request for the skill is answered with error
    code -32603 and the message of the exception, when that is not empty. *)
Theorem failed_skill_propagates_uncharged H skill params caller clk (w : World H)
    e scene' :
  py_exec H (skill_code skill) params (w_scene w) = (Raise e, scene') ->
  execute_dynamic_skill H skill params caller clk w
  = (Raise e, mkWorld (w_db w) scene')
  /\ forall t line request method,
       json_loads H line = Some (JObj request) ->
       assoc "method" request = Some method ->
       resolve H method (w_db w) = Ok (Some (Dynamic skill)) ->
       default (JObj []) (assoc "params" request) = params ->
       tick_wait t = Completes ->
       exn_msg e <> EmptyString ->
       let out := _process_request H t line w in
       out_response out
       = jsonrpc_error (default JNull (assoc "id" request)) (-32603) (exn_msg e)
       /\ error_code (out_response out) = Some (-32603)%Z
       /\ w_db (out_world out) = w_db w.
Proof.
  intros Hexec.
  assert (Hrun : forall caller clk,
             execute_dynamic_skill H skill params caller clk w
             = (Raise e, mkWorld (w_db w) scene')).
  { intros. unfold execute_dynamic_skill. by rewrite Hexec. }
  split; [apply Hrun|].
  intros t line request method Hloads Hmethod Hresolve Hparams Ht Hmsg out.
  unfold out.
  rewrite (_process_request_resolved H t line w request method (Dynamic skill))
    by done.
  unfold bridge, execute_in_main. rewrite Hparams, Hrun, Ht. simpl.
  unfold respond. simpl. unfold str_exn.
  destruct (exn_msg e) eqn:Hm; [done|]. done.
Qed.

(** ** Registration *)

(** What an accepted registration stores: the row is rebuilt from the bound
    parameters and keeps the counter of the row it replaces. *)
Lemma handle_register_skill_accepted H params now d result d' :
  handle_register_skill H params now d = (Ok result, d') ->
  exists fields name category description code version,
    params = JObj fields
    /\ sql_bind H (default JNull (assoc "name" fields)) = BText name
    /\ sql_bind H (default (JStr "standard") (assoc "category" fields))
       = BText category
    /\ sql_bind H (default (JStr "") (assoc "description" fields))
       = BText description
    /\ sql_bind H (default JNull (assoc "code" fields)) = BText code
    /\ sql_bind H (default (JStr "1.0.0") (assoc "version" fields)) = BText version
    /\ d' = Ready (run_sql [ReplaceSkill name category description
                              (default (JObj []) (assoc "parameters" fields))
                              code version now] (tables d)).
Proof.
  unfold handle_register_skill.
  destruct params as [| | | | |fields]; simpl; try done.
  destruct (truthy (default JNull (assoc "name" fields))); simpl; [|done].
  destruct (truthy (default JNull (assoc "code" fields))); simpl; [|done].
  destruct (is_category (default (JStr "standard") (assoc "category" fields)));
    simpl; [|done].
  intros Hrun. exists fields.
  repeat case_match; simplify_eq.
  eexists _, _, _, _, _. repeat split; try done.
  by destruct d.
Qed.

(** C4: re-registering a name replaces the definition and keeps the call
    count of the row it replaces; a fresh name starts at 0.  Other skills, the
    statistics and the call graph are untouched. *)
Theorem register_preserves_call_count H params now d result d' :
  handle_register_skill H params now d = (Ok result, d') ->
  exists fields name row,
    params = JObj fields
    /\ sql_bind H (default JNull (assoc "name" fields)) = BText name
    /\ dynamic_skills (tables d') !! name = Some row
    /\ sk_call_count row
       = match dynamic_skills (tables d) !! name with
         | Some old => sk_call_count old
         | None => 0%Z
         end
    /\ sql_bind H (default (JStr "standard") (assoc "category" fields))
       = BText (sk_category row)
    /\ sql_bind H (default (JStr "") (assoc "description" fields))
       = BText (sk_description row)
    /\ sk_parameters row = default (JObj []) (assoc "parameters" fields)
    /\ sql_bind H (default JNull (assoc "code" fields)) = BText (sk_code row)
    /\ sql_bind H (default (JStr "1.0.0") (assoc "version" fields))
       = BText (sk_version row)
    /\ (forall other, other <> name ->
          dynamic_skills (tables d') !! other = dynamic_skills (tables d) !! other)
    /\ skill_statistics (tables d') = skill_statistics (tables d)
    /\ skill_call_graph (tables d') = skill_call_graph (tables d).
Proof.
  intros (fields & name & category & description & code & version & -> & Hname
          & Hcategory & Hdescription & Hcode & Hversion & ->)
         %handle_register_skill_accepted.
  exists fields, name. eexists. split; [done|]. split; [done|]. simpl.
  split; [apply lookup_insert_eq|]. simpl.
  split; [by destruct (dynamic_skills (tables d) !! name)|].
  repeat (split; [done|]). split; [|done].
  intros other Hother. by rewrite lookup_insert_ne.
Qed.

Lemma assoc_cons key k v fields :
  assoc key ((k, v) :: fields) = if String.eqb k key then Some v else assoc key fields.
Proof. done. Qed.

(** C10: with [name] and [code] supplied and the other keys absent the
    registration is accepted under category "standard", version "1.0.0", an
    empty description and an empty parameter schema; and for each optional key
    taken alone, leaving it out is the same as passing its default. *)
Theorem register_defaults H fields now d :
  (forall name code,
     assoc "name" fields = Some (JStr name) ->
     assoc "code" fields = Some (JStr code) ->
     name <> EmptyString ->
     code <> EmptyString ->
     assoc "category" fields = None ->
     assoc "description" fields = None ->
     assoc "parameters" fields = None ->
     assoc "version" fields = None ->
     handle_register_skill H (JObj fields) now d
     = (Ok (JObj [("success", JBool true);
                  ("name", JStr name);
                  ("category", JStr "standard");
                  ("version", JStr "1.0.0");
                  ("message", JStr ("Skill '" +:+ name +:+ "' registered"))]),
        Ready (run_sql [ReplaceSkill name "standard" "" (JObj []) code "1.0.0" now]
                       (tables d))))
  /\ (forall key value,
        (key, value) ∈ [("category", JStr "standard"); ("description", JStr "");
                        ("parameters", JObj []); ("version", JStr "1.0.0")] ->
        assoc key fields = None ->
        handle_register_skill H (JObj ((key, value) :: fields)) now d
        = handle_register_skill H (JObj fields) now d).
Proof.
  split.
  - intros name code Hname Hcode Hn Hc Hcategory Hdescription Hparameters Hversion.
    unfold handle_register_skill. simpl.
    rewrite Hname, Hcode, Hcategory, Hdescription, Hparameters, Hversion. simpl.
    destruct name; [done|]. destruct code; [done|]. simpl. by destruct d.
  - intros key value Hkey Habsent.
    unfold handle_register_skill, py_get_default, py_get.
    rewrite !assoc_cons.
    repeat (apply elem_of_cons in Hkey as [[= -> ->]|Hkey]);
      [ | | | | by apply elem_of_nil in Hkey ];
      simpl; by rewrite Habsent.
Qed.


(** ** Executing a registered skill *)

(** A stored skill resolves to itself when no static handler has its name. *)
Lemma resolve_dynamic H name row s :
  handlers H name = None ->
  dynamic_skills s !! name = Some row ->
  resolve H (JStr name) (Ready s) = Ok (Some (Dynamic (skill_of_row name row))).
Proof.
  intros Hstatic Hrow. unfold resolve. simpl. rewrite Hstatic. simpl.
  by rewrite Hrow.
Qed.

(** C7: a skill registered under a name that no static handler has and that has
    no statistics yet, invoked once without a caller: the response carries
    what the code bound to [result], or the success marker when it bound
    nothing, and the statistics row shows one direct and no indirect call.
    With code that copies [params] and params [{"x": 1}] the result is
    [{"x": 1}]. *)
Theorem registered_skill_runs_and_is_counted H registration name code now d
    registered d1 t line request params scene bound scene' :
  handle_register_skill H registration now d = (Ok registered, d1) ->
  py_get registration "name" = Ok (Some (JStr name)) ->
  py_get registration "code" = Ok (Some (JStr code)) ->
  handlers H name = None ->
  skill_statistics (tables d) !! name = None ->
  json_loads H line = Some (JObj request) ->
  assoc "method" request = Some (JStr name) ->
  default (JObj []) (assoc "params" request) = params ->
  tick_wait t = Completes ->
  py_exec H code params scene = (Ok bound, scene') ->
  let out := _process_request H t line (mkWorld d1 scene) in
  out_response out
  = jsonrpc_result (default JNull (assoc "id" request))
      (if bound is JNull then success_marker else bound)
  /\ (exists row,
        skill_statistics (tables (w_db (out_world out))) !! name = Some row
        /\ st_direct_calls row = 1%Z
        /\ st_indirect_calls row = 0%Z
        /\ st_total_time_ms row = clk_elapsed_ms (tick_clock t))
  /\ (params = JObj [("x", JNum 1)] -> bound = params ->
        out_response out
        = jsonrpc_result (default JNull (assoc "id" request))
                         (JObj [("x", JNum 1)])).
Proof.
  intros Hregister Hname Hcode Hstatic Hfresh Hloads Hmethod Hparams Ht Hexec out.
  apply handle_register_skill_accepted in Hregister
    as (fields & n & category & description & src & version & -> & Hn & _ & _
        & Hsrc & _ & ->).
  simpl in Hname, Hcode. simplify_eq.
  rewrite Hname in Hn. rewrite Hcode in Hsrc. simpl in Hn, Hsrc. simplify_eq.
  assert (Hout : out_response out
                 = jsonrpc_result (default JNull (assoc "id" request))
                     (if bound is JNull then success_marker else bound)
                 /\ exists row,
                      skill_statistics (tables (w_db (out_world out))) !! n
                      = Some row
                      /\ st_direct_calls row = 1%Z
                      /\ st_indirect_calls row = 0%Z
                      /\ st_total_time_ms row = clk_elapsed_ms (tick_clock t)).
  { unfold out.
    erewrite _process_request_resolved; [|done|done|].
    2:{ simpl. apply resolve_dynamic; [done|]. simpl. apply lookup_insert_eq. }
    unfold bridge, execute_in_main, execute_dynamic_skill. simpl.
    rewrite Hexec, Ht. simpl. split.
    - unfold respond. simpl. done.
    - eexists. rewrite lookup_insert_eq. simpl. rewrite Hfresh. simpl. done. }
  destruct Hout as [Hresponse Hrow]. split; [done|]. split; [done|].
  intros -> ->. by rewrite Hresponse.
Qed.

(** ** Unregistration *)

(** The two queries read their own table only. *)
Lemma handle_get_skill_statistics_reads_statistics H query s s' :
  skill_statistics s' = skill_statistics s ->
  (handle_get_skill_statistics H query (Ready s')).1
  = (handle_get_skill_statistics H query (Ready s)).1.
Proof.
  intros Hsame. unfold handle_get_skill_statistics, select_statistics. simpl.
  rewrite Hsame. by repeat case_match.
Qed.

Lemma handle_get_call_graph_reads_edges H query s s' :
  skill_call_graph s' = skill_call_graph s ->
  (handle_get_call_graph H query (Ready s')).1
  = (handle_get_call_graph H query (Ready s)).1.
Proof.
  intros Hsame. unfold handle_get_call_graph, select_edges. simpl.
  rewrite Hsame. by repeat case_match.
Qed.

(** C9: unregistering a registered skill succeeds and deletes its definition
    row only; the statistics and the call graph are untouched, and the
    statistics and call-graph queries answer as before. *)
Theorem unregister_keeps_statistics_and_edges H fields name s row :
  assoc "name" fields = Some (JStr name) ->
  name <> EmptyString ->
  dynamic_skills s !! name = Some row ->
  let run := handle_unregister_skill H (JObj fields) (Ready s) in
  let s' := tables run.2 in
  run
  = (Ok (JObj [("success", JBool true);
               ("name", JStr name);
               ("message", JStr ("Skill '" +:+ name +:+ "' unregistered"))]),
     Ready (mkStore (delete name (dynamic_skills s)) (skill_statistics s)
                    (skill_call_graph s)))
  /\ skill_statistics s' = skill_statistics s
  /\ skill_call_graph s' = skill_call_graph s
  /\ (forall query,
        (handle_get_skill_statistics H query run.2).1
        = (handle_get_skill_statistics H query (Ready s)).1)
  /\ (forall query,
        (handle_get_call_graph H query run.2).1
        = (handle_get_call_graph H query (Ready s)).1).
Proof.
  intros Hname Hn Hrow run s'.
  assert (Hrun : run
                 = (Ok (JObj [("success", JBool true);
                              ("name", JStr name);
                              ("message",
                               JStr ("Skill '" +:+ name +:+ "' unregistered"))]),
                    Ready (mkStore (delete name (dynamic_skills s))
                                   (skill_statistics s) (skill_call_graph s)))).
  { unfold run, handle_unregister_skill. simpl. rewrite Hname. simpl.
    destruct name; [done|]. simpl. rewrite Hrow.
    rewrite bool_decide_eq_true_2 by eauto. done. }
  unfold s'. rewrite Hrun. simpl. repeat split; try done.
  - intros query. by apply handle_get_skill_statistics_reads_statistics.
  - intros query. by apply handle_get_call_graph_reads_edges.
Qed.

(** * Further properties *)

(** ** The text of a connection *)

Lemma string_app_cons x (a b : string) : String x a +:+ b = String x (a +:+ b).
Proof. done. Qed.

Lemma string_app_assoc (a b c : string) : (a +:+ b) +:+ c = a +:+ (b +:+ c).
Proof.
  induction a as [|x a IH]; [done|]. by rewrite !string_app_cons, IH.
Qed.

Lemma string_app_empty (a : string) : a +:+ "" = a.
Proof. induction a as [|x a IH]; [done|]. by rewrite string_app_cons, IH. Qed.

Lemma split_lines_cons c rest :
  split_lines (String c rest)
  = if Ascii.eqb c newline
    then (EmptyString :: (split_lines rest).1, (split_lines rest).2)
    else match (split_lines rest).1 with
         | [] => ([], String c (split_lines rest).2)
         | line :: later => (String c line :: later, (split_lines rest).2)
         end.
Proof. simpl. by destruct (split_lines rest) as [[|line later] unfinished]. Qed.

(** A buffer without a line feed holds no complete line. *)
Lemma split_lines_unfinished buffer :
  has_newline buffer = false -> split_lines buffer = ([], buffer).
Proof.
  induction buffer as [|c rest IH]; [done|].
  simpl has_newline. intros [Hc Hrest]%orb_false_elim.
  rewrite split_lines_cons, Hc, (IH Hrest). done.
Qed.

Lemma join_lines_cons line lines rest :
  join_lines (line :: lines) rest = line +:+ String newline (join_lines lines rest).
Proof. done. Qed.

Lemma split_lines_join buffer :
  join_lines (split_lines buffer).1 (split_lines buffer).2 = buffer.
Proof.
  induction buffer as [|c rest IH]; [done|].
  rewrite split_lines_cons.
  destruct (Ascii.eqb_spec c newline) as [->|Hc].
  - cbn [fst snd]. by rewrite join_lines_cons, IH.
  - destruct (split_lines rest) as [[|line later] unfinished]; cbn [fst snd] in *.
    + change (join_lines [] ?r) with r in *. by rewrite IH.
    + rewrite join_lines_cons in *. by rewrite string_app_cons, IH.
Qed.

Lemma split_lines_no_newline buffer :
  Forall (fun line => has_newline line = false) (split_lines buffer).1
  /\ has_newline (split_lines buffer).2 = false.
Proof.
  induction buffer as [|c rest [IHlines IHrest]]; [by split|].
  rewrite split_lines_cons.
  destruct (Ascii.eqb c newline) eqn:Hc; simpl.
  - split; [by constructor|done].
  - destruct (split_lines rest) as [[|line later] unfinished]; simpl in *.
    + split; [done|]. by rewrite Hc.
    + inversion IHlines; subst. split; [|done].
      constructor; [|done]. simpl. by rewrite Hc.
Qed.

(** X1: the lines [_handle_client] takes off its buffer and the text it keeps
    are the buffer cut at its line feeds: joined again with one line feed after
    each line they give the buffer back, no line holds a line feed, and neither
    does the text that is kept for the next read. *)
Theorem split_lines_partitions_buffer buffer :
  let '(lines, unfinished) := split_lines buffer in
  join_lines lines unfinished = buffer
  /\ Forall (fun line => has_newline line = false) lines
  /\ has_newline unfinished = false.
Proof.
  pose proof (split_lines_join buffer) as Hjoin.
  pose proof (split_lines_no_newline buffer) as [Hlines Hrest].
  by destruct (split_lines buffer).
Qed.

(** Lines are taken off the front: text that arrives later extends the
    unfinished line only. *)
Lemma split_lines_app text more :
  split_lines (text +:+ more)
  = ((split_lines text).1 ++ (split_lines ((split_lines text).2 +:+ more)).1,
     (split_lines ((split_lines text).2 +:+ more)).2).
Proof.
  induction text as [|c rest IH].
  - change (split_lines "") with (@nil string, EmptyString). cbn [fst snd].
    change ("" +:+ more) with more. by destruct (split_lines more).
  - rewrite string_app_cons, !split_lines_cons, IH.
    destruct (Ascii.eqb c newline) eqn:Hc; simpl; [done|].
    destruct (split_lines rest) as [[|line later] unfinished] eqn:Hrest; simpl.
    + rewrite Hc.
      by destruct (split_lines (unfinished +:+ more)) as [[|l ls] u].
    + done.
Qed.

Lemma _handle_client_stream H env reads : forall buffer (c : Conn H),
  has_newline buffer = false ->
  _handle_client H env reads buffer c
  = foldl (handle_line H env) c (split_lines (buffer +:+ received reads)).1.
Proof.
  induction reads as [|[data|] later IH]; intros buffer c Hbuffer.
  - simpl. rewrite string_app_empty, split_lines_unfinished by done. done.
  - simpl. destruct data as [|x data]; simpl negb; cbv iota.
    + rewrite string_app_empty, split_lines_unfinished by done. done.
    + rewrite <- string_app_assoc.
      rewrite (split_lines_app (buffer +:+ String x data)).
      pose proof (split_lines_no_newline (buffer +:+ String x data)) as [_ Hrest].
      destruct (split_lines (buffer +:+ String x data)) as [lines buffer'].
      simpl in *. rewrite foldl_app. by apply IH.
  - simpl. rewrite string_app_empty, split_lines_unfinished by done. done.
Qed.

(** X2: what a connection does depends on the text it received and not on how
    the reads cut it: the loop handles, in order, the complete lines of the
    text of all reads up to the one that ends it.  Text after the last line
    feed is never handled. *)
Theorem connection_depends_on_text_only H env reads (c : Conn H) :
  _handle_client H env reads "" c
  = foldl (handle_line H env) c (split_lines (received reads)).1.
Proof. by rewrite _handle_client_stream. Qed.

Lemma foldl_handle_line_sent H env lines : forall c : Conn H,
  exists responses,
    conn_sent (foldl (handle_line H env) c lines) = conn_sent c ++ responses
    /\ List.length responses = List.length (requests lines)
    /\ conn_requests (foldl (handle_line H env) c lines)
       = (conn_requests c + List.length (requests lines))%nat.
Proof.
  induction lines as [|line lines IH]; intros c; simpl.
  - exists []. rewrite app_nil_r. repeat split; simpl; lia.
  - destruct (only_whitespace line) eqn:Hline; simpl.
    + rewrite handle_line_blank by done. apply IH.
    + rewrite handle_line_content by done.
      destruct (IH (let out := _process_request H (env (conn_requests c)) line
                                                (conn_world c) in
                    mkConn (out_world out) (conn_sent c ++ [out_response out])
                           (S (conn_requests c))))
        as (responses & Hsent & Hlen & Hreq).
      simpl in *. eexists (_ :: responses). rewrite Hsent, Hreq, <- app_assoc.
      repeat split; simpl; lia.
Qed.

(** X3: a connection writes exactly one response for each complete line that
    is not blank, after the responses written before, and processes as many
    requests. *)
Theorem one_response_per_request_line H env reads (c : Conn H) :
  let lines := (split_lines (received reads)).1 in
  let c' := _handle_client H env reads "" c in
  exists responses,
    conn_sent c' = conn_sent c ++ responses
    /\ List.length responses = List.length (requests lines)
    /\ conn_requests c' = (conn_requests c + List.length (requests lines))%nat.
Proof.
  intros lines c'. unfold c'. rewrite _handle_client_stream by done.
  apply foldl_handle_line_sent.
Qed.

(** ** Responses *)

Lemma respond_envelope H id (seen : MainState H) : Envelope (respond H id seen).
Proof.
  unfold respond. destruct (truthy_str (error_container seen)).
  - apply envelope_error. unfold response_codes. set_solver.
  - apply envelope_result.
Qed.

Lemma respond_id H id (seen : MainState H) :
  response_id (respond H id seen) = Some id.
Proof. unfold respond. by destruct (truthy_str (error_container seen)). Qed.

Lemma _process_request_envelope H t line (w : World H) :
  Envelope (out_response (_process_request H t line w)).
Proof.
  unfold _process_request.
  destruct (json_loads H line) as [[| | | | |request]|]; simpl;
    try (apply envelope_error; unfold response_codes; set_solver).
  destruct (assoc "method" request) as [method|]; simpl;
    [|apply envelope_error; unfold response_codes; set_solver].
  destruct (resolve H method (w_db w)) as [[target|]|e]; simpl;
    [apply respond_envelope | |];
    apply envelope_error; unfold response_codes; set_solver.
Qed.

(** X4: every response of [_process_request] is a JSON-RPC envelope with
    either a result or an error whose code is one of -32700, -32600, -32601
    and -32603; and a request that is not handed to the host thread is
    answered with an error and leaves the world as it was. *)
Theorem every_response_is_an_envelope H t line (w : World H) :
  let out := _process_request H t line w in
  Envelope (out_response out)
  /\ (out_enqueued out = false ->
      is_Some (error_code (out_response out)) /\ out_world out = w).
Proof.
  split; [apply _process_request_envelope|].
  unfold _process_request.
  destruct (json_loads H line) as [[| | | | |request]|]; simpl;
    try (intros _; split; [by eexists|done]).
  destruct (assoc "method" request) as [method|]; simpl;
    [|intros _; split; [by eexists|done]].
  destruct (resolve H method (w_db w)) as [[target|]|e]; simpl;
    [done| |]; intros _; split; by eexists.
Qed.

(** The lookup of a method that is a string fails only on a database file
    without tables. *)
Lemma resolve_text H name d :
  d <> NoTables -> exists target, resolve H (JStr name) d = Ok target.
Proof.
  intros Hd. unfold resolve. simpl.
  destruct (handlers H name) as [handler|]; simpl; [by eexists|].
  destruct d as [| |s]; simpl; [by eexists|done|].
  destruct (dynamic_skills s !! name); simpl; by eexists.
Qed.

(** X5: a request that is a JSON object whose method is a string (or is
    missing) is answered with its own id, [null] when it has none, whatever
    the outcome: invalid request, method not found, result, error of the
    handler or elapsed wait.  The database file holds its tables or does not
    exist. *)
Theorem request_id_is_echoed H t line (w : World H) request :
  json_loads H line = Some (JObj request) ->
  assoc "method" request = None
  \/ (exists name, assoc "method" request = Some (JStr name)) ->
  w_db w <> NoTables ->
  response_id (out_response (_process_request H t line w))
  = Some (default JNull (assoc "id" request)).
Proof.
  intros Hloads Hmethod Hdb. unfold _process_request. rewrite Hloads.
  destruct Hmethod as [->|[name ->]]; [done|].
  destruct (resolve_text H name (w_db w) Hdb) as [[target|] ->]; simpl; [|done].
  apply respond_id.
Qed.

(** X6: a request whose method is a list or a dict fails in the lookup of the
    static table; it is answered by the general exception handler with code
    -32603 and the id [null], although the request carried an id; nothing is
    handed to the host thread. *)
Theorem unhashable_method_loses_request_id H t line (w : World H) request method :
  json_loads H line = Some (JObj request) ->
  assoc "method" request = Some method ->
  type_name method = "list" \/ type_name method = "dict" ->
  let out := _process_request H t line w in
  out_response out
  = jsonrpc_error JNull (-32603) (runtime_message H "hash" method)
  /\ response_id (out_response out) = Some JNull
  /\ out_enqueued out = false
  /\ out_world out = w.
Proof.
  intros Hloads Hmethod Htype. unfold _process_request.
  rewrite Hloads, Hmethod.
  destruct method; simpl in Htype; destruct Htype as [?|?]; try done.
Qed.

(** X7: when the call made on the host thread raises an exception whose
    message is empty, the error slot holds the empty string, which the
    response test takes for no error: the request is answered as a success
    with a [null] result. *)
Theorem exception_without_message_is_answered_as_success H t line (w : World H)
    request method target e :
  json_loads H line = Some (JObj request) ->
  assoc "method" request = Some method ->
  resolve H method (w_db w) = Ok (Some target) ->
  tick_wait t = Completes ->
  (run_target H target (default (JObj []) (assoc "params" request))
              (tick_started t) (tick_clock t) w).1 = Raise e ->
  exn_msg e = EmptyString ->
  let out := _process_request H t line w in
  out_response out = jsonrpc_result (default JNull (assoc "id" request)) JNull
  /\ error_code (out_response out) = None
  /\ out_signalled out = true.
Proof.
  intros Hloads Hmethod Hresolve Ht Hrun Hmsg out. unfold out.
  rewrite (_process_request_resolved H t line w request method target) by done.
  unfold bridge, execute_in_main. rewrite Ht. cbn [ms_world].
  destruct target as [name handler|skill]; simpl in Hrun.
  - destruct (handler _ _ w) as [[result|e'] w']; simpl in Hrun; [done|].
    injection Hrun as ->. simpl. unfold respond, str_exn. simpl. by rewrite Hmsg.
  - destruct (execute_dynamic_skill H skill _ None _ w) as [[result|e'] w'];
      simpl in Hrun; [done|].
    injection Hrun as ->. simpl. unfold respond, str_exn. simpl. by rewrite Hmsg.
Qed.

(** X8: a request for a core handler that completes is counted when the
    handler returns and only then: its statistics row gets one more direct
    call, the elapsed time and the time stamp, on top of what the handler
    itself left, no other row and no edge changes; when the handler raises
    nothing is recorded and the request is answered with code -32603 and the
    message. *)
Theorem core_handler_call_is_counted_on_success_only H t line (w : World H)
    request name handler :
  json_loads H line = Some (JObj request) ->
  assoc "method" request = Some (JStr name) ->
  handlers H name = Some handler ->
  tick_wait t = Completes ->
  let run := handler (default (JObj []) (assoc "params" request)) (tick_started t) w in
  let out := _process_request H t line w in
  let id := default JNull (assoc "id" request) in
  let before := skill_statistics (tables (w_db run.2)) in
  let after := skill_statistics (tables (w_db (out_world out))) in
  match run.1 with
  | Ok result =>
      out_response out = jsonrpc_result id result
      /\ (exists row,
            after !! name = Some row
            /\ st_direct_calls row
               = (from_option st_direct_calls 0 (before !! name) + 1)%Z
            /\ st_indirect_calls row
               = from_option st_indirect_calls 0%Z (before !! name)
            /\ st_total_time_ms row
               = (from_option st_total_time_ms 0 (before !! name)
                  + clk_elapsed_ms (tick_clock t))%Z
            /\ st_last_called row = Some (clk_now (tick_clock t)))
      /\ (forall other, other <> name -> after !! other = before !! other)
      /\ skill_call_graph (tables (w_db (out_world out)))
         = skill_call_graph (tables (w_db run.2))
  | Raise e =>
      out_world out = run.2
      /\ (exn_msg e <> EmptyString ->
          out_response out = jsonrpc_error id (-32603) (exn_msg e))
  end.
Proof.
  intros Hloads Hmethod Hstatic Ht run out id before after.
  assert (Hout : out = bridge H t (Static name handler)
                         (default (JObj []) (assoc "params" request)) id w).
  { unfold out. apply (_process_request_resolved H t line w request (JStr name));
      [done|done|]. unfold resolve. simpl. by rewrite Hstatic. }
  unfold after, before. rewrite Hout. clear Hout out after before.
  unfold bridge, execute_in_main. rewrite Ht. cbn [ms_world]. subst run.
  destruct (handler _ _ w) as [[result|e] w']; simpl.
  - split; [done|]. split; [|split; [|done]].
    + eexists. rewrite lookup_insert_eq. split; [done|].
      destruct (skill_statistics (tables (w_db w')) !! name); simpl;
        repeat split; lia.
    + intros other Hother. by rewrite lookup_insert_ne.
  - split; [done|]. intros Hmsg. unfold respond, str_exn. simpl.
    by destruct (exn_msg e).
Qed.

(** Only the last state of a run carries the completion signal. *)
Lemma observed_signalled H target params started clk (st0 : MainState H) p :
  done_event st0 = false ->
  let trace := execute_in_main H target params started clk st0 in
  done_event (observed H p st0 trace) = true ->
  observed H p st0 trace = List.last trace st0.
Proof.
  intros Hst0 trace. unfold trace, execute_in_main.
  destruct p as [|n]; [done|]. simpl.
  destruct target as [name handler|skill].
  - destruct (handler params started (ms_world st0)) as [[result|e] w'];
      destruct n as [|[|[|n]]]; simpl; rewrite ?take_nil; simpl; congruence.
  - destruct (execute_dynamic_skill H skill params None clk (ms_world st0))
      as [[result|e] w']; destruct n as [|[|[|n]]]; simpl; rewrite ?take_nil;
      simpl; congruence.
Qed.

(** X9: the 30 second bound ends the wait, not the task: whether or not the
    wait elapses, the same task is handed to the host thread and the world
    ends as if the wait had been long enough; and when the wait ends by the
    signal, the response is the one of the completed run. *)
Theorem elapsed_wait_does_not_cancel_the_task H t line (w : World H) :
  let completed := mkTick (tick_started t) (tick_clock t) Completes in
  let out := _process_request H t line w in
  let out' := _process_request H completed line w in
  out_world out = out_world out'
  /\ out_enqueued out = out_enqueued out'
  /\ (out_signalled out = true -> out_response out = out_response out').
Proof.
  unfold _process_request.
  destruct (json_loads H line) as [[| | | | |request]|]; simpl; try done.
  destruct (assoc "method" request) as [method|]; simpl; [|done].
  destruct (resolve H method (w_db w)) as [[target|]|e]; simpl; try done.
  split; [done|]. split; [done|]. intros Hsignalled.
  by rewrite observed_signalled.
Qed.

(** The keys of the static table are the names seeded into the statistics. *)
Lemma handlers_keys H name : is_Some (handlers H name) <-> name ∈ handler_names.
Proof.
  unfold handlers, handler_names, registry_handler_names.
  rewrite elem_of_app, !elem_of_cons, elem_of_nil.
  destruct (String.eqb_spec name "register_skill") as [->|?];
    [split; [intros _; naive_solver | intros _; by eexists]|].
  destruct (String.eqb_spec name "list_skills") as [->|?];
    [split; [intros _; naive_solver | intros _; by eexists]|].
  destruct (String.eqb_spec name "unregister_skill") as [->|?];
    [split; [intros _; naive_solver | intros _; by eexists]|].
  destruct (String.eqb_spec name "get_skill_statistics") as [->|?];
    [split; [intros _; naive_solver | intros _; by eexists]|].
  destruct (String.eqb_spec name "get_call_graph") as [->|?];
    [split; [intros _; naive_solver | intros _; by eexists]|].
  case_bool_decide as Hscene.
  - split; [by left | by eexists].
  - split; [by intros [? ?]|]. intros [?|Hreg]; [done|].
    repeat (destruct Hreg as [->|Hreg]; [done|]). done.
Qed.

(** X10: a skill may be registered under the name of a core handler: the
    registration is stored and [get_dynamic_skill] finds it, but requests for
    the name still go to the core handler, which the dispatcher looks up
    first. *)
Theorem core_handler_shadows_dynamic_skill H params now d result d' name :
  handle_register_skill H params now d = (Ok result, d') ->
  py_get params "name" = Ok (Some (JStr name)) ->
  name ∈ handler_names ->
  (exists skill, get_dynamic_skill H (JStr name) d' = Ok (Some skill))
  /\ (exists handler,
        handlers H name = Some handler
        /\ resolve H (JStr name) d' = Ok (Some (Static name handler))).
Proof.
  intros Hregister Hname Hcore.
  apply handle_register_skill_accepted in Hregister
    as (fields & n & category & description & src & version & -> & Hn & _ & _
        & _ & _ & ->).
  simpl in Hname. simplify_eq. rewrite Hname in Hn. simpl in Hn. simplify_eq.
  split.
  - eexists. simpl. rewrite lookup_insert_eq. done.
  - destruct (proj2 (handlers_keys H n) Hcore) as [handler Hhandler].
    exists handler.
    split; [done|]. unfold resolve. simpl. by rewrite Hhandler.
Qed.

(** ** The registry *)

(** X11: a registration that fails changes no table; when it fails one of the
    three checks (name, code, category) it raises a [ValueError] before the
    database is touched, so that not even the file is created. *)
Theorem failed_registration_changes_no_table H params now d e d' :
  handle_register_skill H params now d = (Raise e, d') ->
  tables d' = tables d
  /\ (forall fields,
        params = JObj fields ->
        truthy (default JNull (assoc "name" fields))
        && truthy (default JNull (assoc "code" fields))
        && is_category (default (JStr "standard") (assoc "category" fields))
        = false ->
        d' = d /\ exn_type e = "ValueError").
Proof.
  intros Hrun. split.
  - unfold handle_register_skill in Hrun.
    destruct params as [| | | | |fields]; simpl in Hrun; try by simplify_eq.
    destruct (truthy (default JNull (assoc "name" fields))); simpl in Hrun;
      [|by simplify_eq].
    destruct (truthy (default JNull (assoc "code" fields))); simpl in Hrun;
      [|by simplify_eq].
    destruct (is_category (default (JStr "standard") (assoc "category" fields)));
      simpl in Hrun; [|by simplify_eq].
    repeat case_match; simplify_eq; by destruct d.
  - intros fields -> Hvalid. unfold handle_register_skill in Hrun.
    simpl in Hrun.
    destruct (truthy (default JNull (assoc "name" fields))); simpl in *;
      [|by simplify_eq].
    destruct (truthy (default JNull (assoc "code" fields))); simpl in *;
      [|by simplify_eq].
    rewrite Hvalid in Hrun. simpl in Hrun. by simplify_eq.
Qed.

(** X12: an accepted registration can be read back: [get_dynamic_skill] of
    the registered name returns the definition that was bound, and a request
    for the name resolves to it unless a core handler has the name. *)
Theorem registered_skill_is_found H params now d result d' :
  handle_register_skill H params now d = (Ok result, d') ->
  exists fields skill,
    params = JObj fields
    /\ get_dynamic_skill H (default JNull (assoc "name" fields)) d' = Ok (Some skill)
    /\ sql_bind H (default JNull (assoc "name" fields)) = BText (skill_name skill)
    /\ sql_bind H (default (JStr "standard") (assoc "category" fields))
       = BText (skill_category skill)
    /\ sql_bind H (default (JStr "") (assoc "description" fields))
       = BText (skill_description skill)
    /\ skill_parameters skill = default (JObj []) (assoc "parameters" fields)
    /\ sql_bind H (default JNull (assoc "code" fields)) = BText (skill_code skill)
    /\ sql_bind H (default (JStr "1.0.0") (assoc "version" fields))
       = BText (skill_version skill)
    /\ resolve H (JStr (skill_name skill)) d'
       = match handlers H (skill_name skill) with
         | Some handler => Ok (Some (Static (skill_name skill) handler))
         | None => Ok (Some (Dynamic skill))
         end.
Proof.
  intros (fields & name & category & description & code & version & -> & Hname
          & Hcategory & Hdescription & Hcode & Hversion & ->)
         %handle_register_skill_accepted.
  exists fields. eexists. split; [done|]. simpl. rewrite Hname.
  rewrite lookup_insert_eq. simpl. split; [done|]. simpl.
  repeat (split; [done|]).
  unfold resolve. simpl. destruct (handlers H name); simpl; [done|].
  by rewrite lookup_insert_eq.
Qed.

Lemma store_eta s :
  mkStore (dynamic_skills s) (skill_statistics s) (skill_call_graph s) = s.
Proof. by destruct s. Qed.

Lemma handle_unregister_skill_unknown H fields name d :
  assoc "name" fields = Some (JStr name) ->
  name <> EmptyString ->
  d <> NoTables ->
  dynamic_skills (tables d) !! name = None ->
  handle_unregister_skill H (JObj fields) d
  = (Raise (ValueError ("Skill not found: " +:+ name)), d).
Proof.
  intros Hname Hn Hd Hrow. unfold handle_unregister_skill. simpl.
  rewrite Hname. simpl. destruct name; [done|]. simpl.
  destruct d as [| |s]; [done|done|]. simpl in *. rewrite Hrow.
  rewrite bool_decide_eq_false_2 by (by intros [? ?]). simpl.
  rewrite delete_id by done. by rewrite store_eta.
Qed.

(** X13: unregistering a name that is not registered raises
    [ValueError("Skill not found: <name>")] and leaves the database as it
    was, whether the file exists or not. *)
Theorem unregistering_an_unknown_skill_fails H fields name d :
  assoc "name" fields = Some (JStr name) ->
  name <> EmptyString ->
  d <> NoTables ->
  dynamic_skills (tables d) !! name = None ->
  (handle_unregister_skill H (JObj fields) d).1
  = Raise (ValueError ("Skill not found: " +:+ name))
  /\ (handle_unregister_skill H (JObj fields) d).2 = d.
Proof.
  intros Hname Hn Hd Hrow.
  by rewrite (handle_unregister_skill_unknown H fields name d).
Qed.

(** X14: once a skill is unregistered it is gone: [get_dynamic_skill] no
    longer finds it, unregistering it again fails with "Skill not found", and
    a request for its name is answered with code -32601 without reaching the
    host thread (when no core handler has the name). *)
Theorem unregistered_skill_is_gone H fields name s row :
  assoc "name" fields = Some (JStr name) ->
  name <> EmptyString ->
  dynamic_skills s !! name = Some row ->
  let d' := (handle_unregister_skill H (JObj fields) (Ready s)).2 in
  get_dynamic_skill H (JStr name) d' = Ok None
  /\ handle_unregister_skill H (JObj fields) d'
     = (Raise (ValueError ("Skill not found: " +:+ name)), d')
  /\ (handlers H name = None ->
      forall t line request scene,
        json_loads H line = Some (JObj request) ->
        assoc "method" request = Some (JStr name) ->
        let out := _process_request H t line (mkWorld d' scene) in
        error_code (out_response out) = Some (-32601)%Z
        /\ out_enqueued out = false).
Proof.
  intros Hname Hn Hrow d'.
  assert (Hd' : d' = Ready (mkStore (delete name (dynamic_skills s))
                                    (skill_statistics s) (skill_call_graph s))).
  { unfold d', handle_unregister_skill. simpl. rewrite Hname. simpl.
    destruct name; [done|]. simpl. rewrite Hrow.
    rewrite bool_decide_eq_true_2 by eauto. done. }
  assert (Hgone : dynamic_skills (tables d') !! name = None).
  { rewrite Hd'. simpl. apply lookup_delete_eq. }
  split; [|split].
  - rewrite Hd' in *. simpl in *. by rewrite Hgone.
  - apply handle_unregister_skill_unknown; try done. by rewrite Hd'.
  - intros Hstatic t line request scene Hloads Hmethod out.
    unfold out, _process_request. rewrite Hloads, Hmethod. cbn [w_db].
    rewrite (resolve_unregistered H name d') by (try done; by rewrite Hd').
    done.
Qed.

(** ** Tracking *)

(** X15: a skill executed on behalf of a caller counts as an indirect call:
    its row gets one more indirect call and no direct one, a row created by
    the call is not a core row, and the legacy counter of the definition goes
    up by one as for a direct call.  The edge from the caller to the skill is
    created at 1 or incremented, unless the caller is the empty string: then
    the call is counted as indirect and no edge is recorded. *)
Theorem skill_called_by_a_caller_counts_as_indirect H skill params caller clk
    (w : World H) s bound scene' :
  w_db w = Ready s ->
  py_exec H (skill_code skill) params (w_scene w) = (Ok bound, scene') ->
  let name := skill_name skill in
  let run := execute_dynamic_skill H skill params (Some caller) clk w in
  let s' := tables (w_db run.2) in
  let row := skill_statistics s !! name in
  run.1 = Ok (if bound is JNull then success_marker else bound)
  /\ (exists row',
        skill_statistics s' !! name = Some row'
        /\ st_indirect_calls row' = (from_option st_indirect_calls 0 row + 1)%Z
        /\ st_direct_calls row' = from_option st_direct_calls 0%Z row
        /\ st_is_core row' = from_option st_is_core false row)
  /\ skill_call_graph s' !! (caller, name)
     = (if String.eqb caller "" then skill_call_graph s !! (caller, name)
        else Some (default 0 (skill_call_graph s !! (caller, name)) + 1)%Z)
  /\ (sk_call_count <$> dynamic_skills s' !! name)
     = ((fun r => sk_call_count r + 1)%Z <$> dynamic_skills s !! name).
Proof.
  intros Hdb Hexec name run s' row.
  unfold s', run, execute_dynamic_skill. rewrite Hexec, Hdb. simpl.
  split; [done|]. split; [|split].
  - eexists. destruct (String.eqb caller ""); simpl; rewrite lookup_insert_eq;
      (split; [done|]); unfold row; fold name;
      destruct (skill_statistics s !! name); simpl; repeat split; lia.
  - fold name. destruct (String.eqb caller ""); simpl; [done|].
    rewrite lookup_insert_eq.
    destruct (skill_call_graph s !! (caller, name)); simpl; f_equal; lia.
  - fold name. destruct (String.eqb caller ""); simpl;
      rewrite lookup_alter_eq; by destruct (dynamic_skills s !! name).
Qed.

(** X16: [track_indirect_handler_call] accumulates: after any number of calls
    for the same caller and handler, with any clock readings, the edge from
    the caller to the handler and the indirect calls of the handler have both
    gone up by the number of calls and its time by the sum of the elapsed
    times, while its direct calls, every other row (the caller's too), every
    other edge and the skill definitions are as before. *)
Theorem indirect_calls_accumulate name caller (readings : list (Z * string)) d :
  let d' := foldl (fun d reading =>
                     track_indirect_handler_call name caller reading.1 reading.2 d)
                  d readings in
  let calls := Z.of_nat (List.length readings) in
  let row := skill_statistics (tables d) !! name in
  let row' := skill_statistics (tables d') !! name in
  let edge s := default 0%Z (skill_call_graph s !! (caller, name)) in
  edge (tables d') = (edge (tables d) + calls)%Z
  /\ from_option st_indirect_calls 0%Z row'
     = (from_option st_indirect_calls 0 row + calls)%Z
  /\ from_option st_direct_calls 0%Z row' = from_option st_direct_calls 0%Z row
  /\ from_option st_total_time_ms 0%Z row'
     = (from_option st_total_time_ms 0 row
        + foldr (fun reading total => reading.1 + total) 0 readings)%Z
  /\ (forall other, other <> name ->
        skill_statistics (tables d') !! other
        = skill_statistics (tables d) !! other)
  /\ (forall other, other <> (caller, name) ->
        skill_call_graph (tables d') !! other
        = skill_call_graph (tables d) !! other)
  /\ dynamic_skills (tables d') = dynamic_skills (tables d).
Proof.
  revert d. induction readings as [|[ms now] readings IH]; intros d; simpl.
  - repeat split; lia.
  - specialize (IH (track_indirect_handler_call name caller ms now d)).
    simpl in IH.
    destruct IH as (Hedge & Hindirect & Hdirect & Htime & Hrows & Hedges & Hskills).
    rewrite Hedge, Hindirect, Hdirect, Htime, Hskills.
    rewrite !lookup_insert_eq, ?Nat2Z.inj_succ, ?Zpos_P_of_succ_nat. simpl.
    split; [|split; [|split; [|split; [|split; [|split]]]]].
    + destruct (skill_call_graph (tables d) !! (caller, name)); simpl; lia.
    + destruct (skill_statistics (tables d) !! name); simpl; lia.
    + destruct (skill_statistics (tables d) !! name); simpl; lia.
    + destruct (skill_statistics (tables d) !! name); simpl; lia.
    + intros other Hother. rewrite Hrows by done. by rewrite lookup_insert_ne.
    + intros other Hother. rewrite Hedges by done. by rewrite lookup_insert_ne.
    + done.
Qed.

(** ** Seeding the statistics *)

Lemma run_sql_cons q qs s : run_sql (q :: qs) s = run_sql qs (execute_sql q s).
Proof. done. Qed.

Lemma seeding_tables names : forall s,
  dynamic_skills (run_sql (InsertIgnoreStatistics <$> names) s) = dynamic_skills s
  /\ skill_call_graph (run_sql (InsertIgnoreStatistics <$> names) s)
     = skill_call_graph s
  /\ forall name,
       skill_statistics (run_sql (InsertIgnoreStatistics <$> names) s) !! name
       = match skill_statistics s !! name with
         | Some row => Some row
         | None => if bool_decide (name ∈ names)
                   then Some (mkStatRow true 0 0 None 0) else None
         end.
Proof.
  induction names as [|n names IH]; intros s.
  - repeat split. intros name. simpl. by destruct (skill_statistics s !! name).
  - rewrite fmap_cons, run_sql_cons.
    destruct (IH (execute_sql (InsertIgnoreStatistics n) s))
      as (Hskills & Hgraph & Hstats).
    rewrite Hskills, Hgraph. split; [|split].
    + simpl. by destruct (skill_statistics s !! n).
    + simpl. by destruct (skill_statistics s !! n).
    + intros name. rewrite Hstats. simpl.
      destruct (decide (name = n)) as [->|Hne].
      * rewrite (bool_decide_eq_true_2 (n ∈ n :: names)) by by left.
        destruct (skill_statistics s !! n) eqn:Hn; simpl; [by rewrite Hn|].
        by rewrite lookup_insert_eq.
      * assert (Hsame : skill_statistics
                          match skill_statistics s !! n with
                          | Some _ => s
                          | None =>
                              mkStore (dynamic_skills s)
                                (<[n := mkStatRow true 0 0 None 0]>
                                   (skill_statistics s))
                                (skill_call_graph s)
                          end !! name
                        = skill_statistics s !! name).
        { destruct (skill_statistics s !! n); simpl; [done|].
          by rewrite lookup_insert_ne. }
        rewrite Hsame. destruct (skill_statistics s !! name); [done|].
        destruct (decide (name ∈ names)).
        -- rewrite !bool_decide_eq_true_2; [done| |done]. by right.
        -- rewrite !bool_decide_eq_false_2; [done| |done].
           by intros [?|?]%elem_of_cons.
Qed.

Lemma seeding_known names : forall s,
  (forall name, name ∈ names -> is_Some (skill_statistics s !! name)) ->
  run_sql (InsertIgnoreStatistics <$> names) s = s.
Proof.
  induction names as [|n names IH]; intros s Hknown; [done|].
  rewrite fmap_cons, run_sql_cons. simpl.
  destruct (Hknown n) as [row Hrow]; [by left|]. rewrite Hrow.
  apply IH. intros name Hname. apply Hknown. by right.
Qed.

(** X17: [register_core_handlers] never resets what was recorded: a name that
    has a statistics row keeps it unchanged, a listed name without a row gets
    the zero row of a core handler, no other row appears, the skill
    definitions and the call graph are untouched, and seeding again changes
    nothing. *)
Theorem seeding_keeps_recorded_statistics names d :
  let d' := register_core_handlers names d in
  (forall name,
     skill_statistics (tables d') !! name
     = match skill_statistics (tables d) !! name with
       | Some row => Some row
       | None => if bool_decide (name ∈ names)
                 then Some (mkStatRow true 0 0 None 0) else None
       end)
  /\ dynamic_skills (tables d') = dynamic_skills (tables d)
  /\ skill_call_graph (tables d') = skill_call_graph (tables d)
  /\ register_core_handlers names d' = d'.
Proof.
  intros d'. unfold d', register_core_handlers. simpl.
  destruct (seeding_tables names (tables d)) as (Hskills & Hgraph & Hstats).
  split; [done|]. split; [done|]. split; [done|].
  f_equal. apply seeding_known. intros name Hname. rewrite Hstats.
  destruct (skill_statistics (tables d) !! name); [by eexists|].
  rewrite bool_decide_eq_true_2 by done. by eexists.
Qed.

(** X18: when the server has been created, every method of its static table
    has a statistics row: the row it had before, or the zero row of a core
    handler; creating the server again (a restart on the same database)
    changes nothing. *)
Theorem server_start_seeds_every_handler H d name :
  is_Some (handlers H name) ->
  skill_statistics (tables (server_init d)) !! name
  = Some (default (mkStatRow true 0 0 None 0) (skill_statistics (tables d) !! name))
  /\ server_init (server_init d) = server_init d.
Proof.
  intros Hname%handlers_keys. unfold server_init, register_core_handlers.
  cbn [tables].
  destruct (seeding_tables handler_names (tables d)) as (_ & _ & Hstats).
  split.
  - rewrite Hstats. destruct (skill_statistics (tables d) !! name); [done|].
    by rewrite bool_decide_eq_true_2.
  - f_equal. apply seeding_known. intros n Hn. rewrite Hstats.
    destruct (skill_statistics (tables d) !! n); [by eexists|].
    rewrite bool_decide_eq_true_2 by done. by eexists.
Qed.

(** ** Growth of the statistics *)

Lemma grows_refl r : grows r r.
Proof. unfold grows. repeat split; lia. Qed.

Lemma grows_trans r1 r2 r3 : grows r1 r2 -> grows r2 r3 -> grows r1 r3.
Proof. unfold grows. intros (-> & ? & ?) (-> & ? & ?). repeat split; lia. Qed.

Ltac kept_as_is :=
  intros; eexists; split; [eassumption | first [apply grows_refl | lia]].

Lemma execute_sql_grows q s :
  counts_one_call q ->
  (forall name row,
     skill_statistics s !! name = Some row ->
     exists row', skill_statistics (execute_sql q s) !! name = Some row'
                  /\ grows row row')
  /\ (forall edge n,
        skill_call_graph s !! edge = Some n ->
        exists n', skill_call_graph (execute_sql q s) !! edge = Some n'
                   /\ (n <= n')%Z).
Proof.
  intros Hq.
  destruct q as [n c d p src v now | n | n | n | n core direct indirect now ms | c n];
    simpl in *.
  - split; kept_as_is.
  - split; kept_as_is.
  - split; kept_as_is.
  - destruct (skill_statistics s !! n) eqn:Hn; simpl.
    + split; kept_as_is.
    + split.
      * intros name row Hrow. assert (name <> n) by (intros ->; congruence).
        rewrite lookup_insert_ne by done. eexists. split; [done|apply grows_refl].
      * kept_as_is.
  - split.
    + intros name row Hrow. destruct (decide (name = n)) as [->|Hne].
      * rewrite lookup_insert_eq, Hrow. eexists. split; [done|].
        unfold grows. simpl. repeat split; lia.
      * rewrite lookup_insert_ne by done. eexists. split; [done|apply grows_refl].
    + kept_as_is.
  - split.
    + kept_as_is.
    + intros edge k Hedge. destruct (decide (edge = (c, n))) as [->|Hne].
      * rewrite lookup_insert_eq, Hedge. eexists. split; [done|lia].
      * rewrite lookup_insert_ne by done. eexists. split; [done|lia].
Qed.

Lemma run_sql_grows qs : forall s,
  Forall counts_one_call qs ->
  (forall name row,
     skill_statistics s !! name = Some row ->
     exists row', skill_statistics (run_sql qs s) !! name = Some row'
                  /\ grows row row')
  /\ (forall edge n,
        skill_call_graph s !! edge = Some n ->
        exists n', skill_call_graph (run_sql qs s) !! edge = Some n'
                   /\ (n <= n')%Z).
Proof.
  induction qs as [|q qs IH]; intros s Hqs; simpl.
  - split; kept_as_is.
  - inversion Hqs as [|? ? Hq Hqs']; subst.
    destruct (execute_sql_grows q s Hq) as [Hrows Hedges].
    destruct (IH (execute_sql q s) Hqs') as [Hrows' Hedges'].
    split.
    + intros name row Hrow.
      destruct (Hrows name row Hrow) as (row1 & Hrow1 & Hgrows1).
      destruct (Hrows' name row1 Hrow1) as (row2 & Hrow2 & Hgrows2).
      exists row2. split; [done|]. by eapply grows_trans.
    + intros edge n Hedge.
      destruct (Hedges edge n Hedge) as (n1 & Hn1 & Hle1).
      destruct (Hedges' edge n1 Hn1) as (n2 & Hn2 & Hle2).
      exists n2. split; [done|lia].
Qed.

Lemma op_sql_counts_one_call H (w : World H) op :
  Forall counts_one_call (op_sql H w op).
Proof.
  destruct op as [skill params caller clk | name ms now | name caller ms now
                 | names | params now | params]; simpl.
  - destruct (py_exec H (skill_code skill) params (w_scene w)).1; [|done].
    unfold execution_sql. apply Forall_app. split.
    + apply Forall_cons. split; [done|]. apply Forall_cons. split; [|done].
      simpl. destruct caller; [by right|by left].
    + destruct (truthy_str caller); [|done]. by apply Forall_cons.
  - apply Forall_cons. split; [by left|done].
  - apply Forall_cons. split; [by right|]. by apply Forall_cons.
  - induction names; simpl; by constructor.
  - unfold register_sql. repeat case_match; try done. by apply Forall_cons.
  - unfold unregister_sql. repeat case_match; try done. by apply Forall_cons.
Qed.

Lemma history_counts_one_call H ops : forall w : World H,
  Forall counts_one_call (history H ops w).
Proof.
  induction ops as [|op ops IH]; intros w; simpl; [done|].
  apply Forall_app. split; [apply op_sql_counts_one_call|apply IH].
Qed.

(** X19: the statistics and the call graph only grow: along every run of
    registry operations on existing tables (executions, tracked calls,
    seeding, registrations, unregistrations) a statistics row that exists
    stays, keeps its kind (core or not) and never has a counter lowered, and
    an edge that exists stays and never has its count lowered. *)
Theorem statistics_only_grow H ops (w : World H) s :
  w_db w = Ready s ->
  let s' := tables (w_db (run_ops H ops w)) in
  (forall name row,
     skill_statistics s !! name = Some row ->
     exists row', skill_statistics s' !! name = Some row' /\ grows row row')
  /\ (forall edge n,
        skill_call_graph s !! edge = Some n ->
        exists n', skill_call_graph s' !! edge = Some n' /\ (n <= n')%Z).
Proof.
  intros Hdb s'. unfold s'. rewrite (run_ops_ready H ops w s Hdb). simpl.
  apply run_sql_grows, history_counts_one_call.
Qed.

(** ** Queries *)

#[local] Existing Instances by_total_calls_desc_dec by_call_count_desc_dec.

#[local] Instance by_total_calls_desc_total : Total by_total_calls_desc.
Proof. intros a b. unfold by_total_calls_desc. lia. Qed.

#[local] Instance by_total_calls_desc_trans : Transitive by_total_calls_desc.
Proof. intros a b c. unfold by_total_calls_desc. lia. Qed.

#[local] Instance by_call_count_desc_total : Total by_call_count_desc.
Proof. intros a b. unfold by_call_count_desc. lia. Qed.

#[local] Instance by_call_count_desc_trans : Transitive by_call_count_desc.
Proof. intros a b c. unfold by_call_count_desc. lia. Qed.

(** X20: without a name filter [get_skill_statistics] returns every row of
    the statistics table exactly once, ranked by total calls: no row has fewer
    calls than a row after it; [count] is the number of rows.  The query
    creates the tables when they are missing and changes no table. *)
Theorem statistics_are_ranked_by_calls H fields d :
  truthy (default JNull (assoc "name" fields)) = false ->
  exists rows,
    handle_get_skill_statistics H (JObj fields) d
    = (Ok (JObj [("success", JBool true);
                 ("count", JNum (Z.of_nat (size (skill_statistics (tables d)))));
                 ("statistics", JArr (stat_json <$> rows))]),
       init_db d)
    /\ rows ≡ₚ map_to_list (skill_statistics (tables d))
    /\ StronglySorted by_total_calls_desc rows
    /\ tables (init_db d) = tables d.
Proof.
  intros Hname.
  exists (merge_sort by_total_calls_desc (map_to_list (skill_statistics (tables d)))).
  split; [|split; [|split]].
  - unfold handle_get_skill_statistics, select_statistics. simpl.
    rewrite Hname. simpl. rewrite length_fmap.
    rewrite (Permutation_length (merge_sort_Permutation _ _)).
    rewrite length_map_to_list. by destruct d.
  - apply merge_sort_Permutation.
  - apply StronglySorted_merge_sort; apply _.
  - by destruct d.
Qed.

Lemma bind_filter_text H value :
  truthy value = false \/ (exists text, value = JStr text) ->
  exists condition,
    bind_filter H value = Ok condition
    /\ forall column, condition_holds condition column = true <-> passes value column.
Proof.
  unfold bind_filter, passes. intros [Hfalsy|[text ->]].
  - rewrite Hfalsy. eexists. split; [done|]. intros column. simpl. split; auto.
  - simpl. destruct (String.eqb_spec text "") as [->|Hne]; simpl.
    + eexists. split; [done|]. intros column. simpl. split; auto.
    + eexists. split; [done|]. intros column. simpl.
      rewrite bool_decide_eq_true. split.
      * intros ->. by right.
      * intros [Hfalsy|[= ->]]; [|done].
        destruct (String.eqb_spec text ""); simpl in *; congruence.
Qed.

(** X21: with filters that are strings (or absent, or empty) [get_call_graph]
    returns exactly the edges of the call graph whose caller and callee pass
    the filters, each once, ranked by call count; an empty filter selects
    every edge. *)
Theorem call_graph_query_selects_matching_edges H fields d :
  let caller_filter := default JNull (assoc "caller" fields) in
  let callee_filter := default JNull (assoc "callee" fields) in
  truthy caller_filter = false \/ (exists text, caller_filter = JStr text) ->
  truthy callee_filter = false \/ (exists text, callee_filter = JStr text) ->
  exists rows,
    handle_get_call_graph H (JObj fields) d
    = (Ok (JObj [("success", JBool true);
                 ("count", JNum (Z.of_nat (List.length rows)));
                 ("edges", JArr (edge_json <$> rows))]),
       init_db d)
    /\ (forall caller callee n,
          (caller, callee, n) ∈ rows
          <-> skill_call_graph (tables d) !! (caller, callee) = Some n
              /\ passes caller_filter caller /\ passes callee_filter callee)
    /\ NoDup rows
    /\ StronglySorted by_call_count_desc rows.
Proof.
  intros caller_filter callee_filter Hcaller Hcallee.
  destruct (bind_filter_text H caller_filter Hcaller) as (on_caller & Hbind1 & Hc1).
  destruct (bind_filter_text H callee_filter Hcallee) as (on_callee & Hbind2 & Hc2).
  eexists. split; [|split; [|split]].
  - unfold handle_get_call_graph, select_edges. simpl.
    fold caller_filter callee_filter. rewrite Hbind1, Hbind2.
    rewrite length_fmap. assert (Hd : tables (init_db d) = tables d) by by destruct d.
    rewrite Hd. reflexivity.
  - intros caller callee n. rewrite merge_sort_Permutation.
    rewrite list_elem_of_filter, elem_of_map_to_list. simpl.
    rewrite andb_True, !Is_true_true, Hc1, Hc2. tauto.
  - rewrite merge_sort_Permutation. apply NoDup_filter, NoDup_map_to_list.
  - apply StronglySorted_merge_sort; apply _.
Qed.



(** ** Calls between handlers *)

(** X23: [call_handler] reaches the handlers of the static table only: for
    any other name, a registered dynamic skill included, it raises
    [ValueError("Handler not found: <name>")] and nothing is run or
    recorded. *)
Theorem call_handler_reaches_core_handlers_only H name params caller started clk
    (w : World H) :
  name ∉ handler_names ->
  call_handler H name params caller started clk w
  = (Raise (ValueError ("Handler not found: " +:+ name)), w).
Proof.
  intros Hname. unfold call_handler.
  destruct (handlers H name) as [handler|] eqn:Hhandler; [|done].
  destruct Hname. apply (handlers_keys H name). by eexists.
Qed.

(** X24: [call_handler] returns what the handler returns or raises, and
    records the call only when the handler returned and a caller is named:
    then the handler's row gets one more indirect call and no direct one, and
    the edge from the caller one more call.  Without a caller, or with the
    empty string as caller, or when the handler raises, the store is as the
    handler left it: the call is counted nowhere. *)
Theorem call_handler_records_calls_with_a_caller_only H name handler params caller
    started clk (w : World H) :
  handlers H name = Some handler ->
  let run := handler params started w in
  let call := call_handler H name params caller started clk w in
  let before := tables (w_db run.2) in
  let after := tables (w_db call.2) in
  call.1 = run.1
  /\ w_scene call.2 = w_scene run.2
  /\ match run.1 with
     | Raise _ => call.2 = run.2
     | Ok _ =>
         if truthy_str caller then
           (exists row,
              skill_statistics after !! name = Some row
              /\ st_indirect_calls row
                 = (from_option st_indirect_calls 0
                                (skill_statistics before !! name) + 1)%Z
              /\ st_direct_calls row
                 = from_option st_direct_calls 0%Z (skill_statistics before !! name))
           /\ skill_call_graph after !! (default "" caller, name)
              = Some (default 0 (skill_call_graph before
                                   !! (default "" caller, name)) + 1)%Z
         else call.2 = run.2
     end.
Proof.
  intros Hhandler run call before after.
  unfold after, before, call, call_handler. rewrite Hhandler. fold run.
  destruct run as [[result|e] w1]; simpl; [|done].
  split; [done|]. split; [done|]. unfold call_handler_tracking. simpl.
  destruct (truthy_str caller); simpl; [|by destruct w1].
  split.
  - eexists. rewrite lookup_insert_eq. split; [done|].
    destruct (skill_statistics (tables (w_db w1)) !! name); simpl; split; lia.
  - rewrite lookup_insert_eq.
    by destruct (skill_call_graph (tables (w_db w1)) !! (default "" caller, name)).
Qed.

(** ** The client *)

(** X25: a request written by [BlenderClient.send_request] is answered with
    the id the client drew, which [BlenderResponse.from_dict] reads back, and
    never with a parse error or an invalid-request error (the database file
    holds its tables or does not exist). *)
Theorem client_request_is_answered_with_its_id H t line (w : World H) id method
    params :
  json_loads H line = Some (send_request_message id method params) ->
  w_db w <> NoTables ->
  let response := out_response (_process_request H t line w) in
  (exists answer, from_dict response = Ok answer /\ resp_id answer = JStr id)
  /\ error_code response <> Some (-32700)%Z
  /\ error_code response <> Some (-32600)%Z.
Proof.
  intros Hloads Hdb response. unfold response, _process_request.
  rewrite Hloads. unfold send_request_message, to_dict. simpl.
  destruct (resolve_text H method (w_db w) Hdb) as [[target|] ->]; simpl.
  - unfold respond.
    destruct (truthy_str _); simpl; (split; [by eexists|done]).
  - split; [by eexists|done].
Qed.

(** X26: both clients read the server's responses alike: for a response with
    an error code [BlenderClient.send_request] raises
    ["Blender error (<code>): <message>"] and [SkillExecutor._send_request]
    raises the message; for every other response both return its result. *)
Theorem clients_raise_exactly_on_error_responses H t line (w : World H) :
  let response := out_response (_process_request H t line w) in
  match error_code response with
  | Some code =>
      exists message,
        send_request_result H response
        = Raise (mkExn "Exception"
                   ("Blender error (" +:+ py_format H (JNum code) +:+ "): "
                    +:+ message))
        /\ _send_request_result H response = Raise (mkExn "Exception" message)
  | None =>
      exists result,
        send_request_result H response = Ok result
        /\ _send_request_result H response = Ok result
        /\ py_get response "result" = Ok (Some result)
  end.
Proof.
  intros response. unfold response.
  destruct (_process_request_envelope H t line w) as [id result|id code message _].
  - simpl. by eexists.
  - simpl. by eexists.
Qed.

(** X27: [BlenderClient.ping] compares the result with the string ["pong"],
    while [handle_ping] returns a dict: against a server whose [ping] handler
    is [handle_ping], [ping] is [False] for every world and however long the
    host thread takes. *)
Theorem ping_never_reports_a_responsive_server H t line (w : World H) id :
  json_loads H line = Some (send_request_message id "ping" JNull) ->
  (forall params scene, (scene_handler H "ping" params scene).1.2
                        = Ok (handle_ping params)) ->
  ping H (out_response (_process_request H t line w)) = false.
Proof.
  intros Hloads Hping. unfold _process_request. rewrite Hloads.
  unfold send_request_message, to_dict. simpl.
  unfold bridge, execute_in_main, run_scene_handler. simpl.
  specialize (Hping (JObj []) (w_scene w)).
  destruct (scene_handler H "ping" (JObj []) (w_scene w)) as [[calls r] scene'].
  simpl in Hping. subst r. simpl.
  destruct (tick_wait t) as [|[|[|[|n]]]]; simpl; try done.
  by destruct n.
Qed.

(** X28: of the methods [call_tool] forwards, [execute_python] and
    [get_version] and only they have no handler in the server's static
    table; a client request for one of them is answered with code -32601
    without reaching the host thread, unless a dynamic skill of that name is
    registered. *)
Theorem forwarded_methods_without_a_handler H :
  Forall (fun entry : string * string =>
            handlers H entry.2 = None
            <-> entry.2 = "execute_python" \/ entry.2 = "get_version")
         method_map
  /\ forall t line (w : World H) id method params,
       method = "execute_python" \/ method = "get_version" ->
       json_loads H line = Some (send_request_message id method params) ->
       w_db w <> NoTables ->
       dynamic_skills (tables (w_db w)) !! method = None ->
       let out := _process_request H t line w in
       error_code (out_response out) = Some (-32601)%Z
       /\ out_enqueued out = false.
Proof.
  split.
  - unfold method_map. repeat (apply Forall_cons; split); [..|done]; simpl; try tauto;
      split; try done; intros [?|?]; done.
  - intros t line w id method params Hmethod Hloads Hdb Hrow out.
    unfold out, _process_request. rewrite Hloads.
    unfold send_request_message, to_dict. simpl.
    rewrite (resolve_unregistered H method (w_db w)); [done| |done|done].
    by destruct Hmethod as [->| ->].
Qed.

(** ** Instances on the reference host *)

Import Reference Examples.

(** C8 on a read that holds a blank line and a [ping]: one response. *)
Lemma blank_line_witness :
  let c :=
    _handle_client reference_host (always prompt)
      [Received ("  " +:+ end_of_line +:+ request_line "1" "ping" (JObj [])
                 +:+ end_of_line)]
      EmptyString (mkConn started [] 0) in
  List.length (conn_sent c) = 1%nat.
Proof.
  destruct (blank_line_gets_no_response reference_host (always prompt) []
              EmptyString
              ("  " +:+ end_of_line +:+ request_line "1" "ping" (JObj [])
               +:+ end_of_line)
              (mkConn started [] 0) [] "  " [request_line "1" "ping" (JObj [])]
              EmptyString) as [Hblank _].
  - discriminate.
  - reflexivity.
  - destruct Hblank as [_ Hloop]; [reflexivity|].
    intros c. unfold c. rewrite Hloop. reflexivity.
Defined.

(** C6 as stated fails on a blank line: it is not valid JSON, and the server
    writes nothing for it. *)
Lemma blank_line_is_not_answered :
  json_loads reference_host "  " = None
  /\ conn_sent (_handle_client reference_host (always prompt)
                  [Received ("  " +:+ end_of_line)] EmptyString
                  (mkConn started [] 0)) = [].
Proof. repeat split; reflexivity. Qed.

(** C6 (as amended) on a read that holds a broken line and a [ping]: a parse
    error, then the answer to the [ping]. *)
Lemma parse_error_witness :
  let c :=
    _handle_client reference_host (always prompt)
      [Received ("{oops" +:+ end_of_line +:+ request_line "1" "ping" (JObj [])
                 +:+ end_of_line)]
      EmptyString (mkConn started [] 0) in
  error_code <$> conn_sent c = [Some (-32700)%Z; None].
Proof.
  destruct (parse_error_keeps_connection reference_host (always prompt) []
              EmptyString
              ("{oops" +:+ end_of_line +:+ request_line "1" "ping" (JObj [])
               +:+ end_of_line)
              (mkConn started [] 0) [] "{oops"
              [request_line "1" "ping" (JObj [])] EmptyString)
    as (_ & _ & Hloop).
  - discriminate.
  - reflexivity.
  - reflexivity.
  - reflexivity.
  - intros c. unfold c. rewrite Hloop. reflexivity.
Defined.

(** C5 on a request for a method nobody registered. *)
Lemma unknown_method_witness :
  let out :=
    _process_request reference_host prompt (request_line "7" "teleport" (JObj []))
                     started in
  error_code (out_response out) = Some (-32601)%Z
  /\ out_enqueued out = false
  /\ out_world out = started.
Proof.
  intros out.
  destruct (unknown_method_is_rejected_without_bridge reference_host prompt
              (request_line "7" "teleport" (JObj [])) started
              (request "7" "teleport" (JObj [])) (JStr "teleport"))
    as (Hcode & _ & Henqueued & Hworld).
  - reflexivity.
  - reflexivity.
  - reflexivity.
  - exact (conj Hcode (conj Henqueued Hworld)).
Defined.

(** C2 on a request for a handler without output: the answer after a stalled
    wait is the answer of the completed run. *)
Lemma elapsed_wait_witness :
  let line := request_line "3" "set_mode" (JObj []) in
  out_response (_process_request reference_host stalled line started)
  = jsonrpc_result (JStr "3") JNull
  /\ out_signalled (_process_request reference_host stalled line started) = false
  /\ out_signalled (_process_request reference_host prompt line started) = true
  /\ out_response (_process_request reference_host prompt line started)
     = out_response (_process_request reference_host stalled line started).
Proof.
  intros line.
  destruct (elapsed_wait_answers_from_slots reference_host stalled prompt line
              started (request "3" "set_mode" (JObj [])) (JStr "set_mode")
              (Static "set_mode" (run_scene_handler reference_host "set_mode")))
    as (_ & Hsignalled & _ & Hempty).
  - reflexivity.
  - reflexivity.
  - reflexivity.
  - reflexivity.
  - destruct Hempty as [Hnull Hsame]; [reflexivity | reflexivity |].
    destruct Hsame as [Hdone Hresponse]; [reflexivity | reflexivity | reflexivity |].
    exact (conj Hnull (conj Hsignalled (conj Hdone Hresponse))).
Defined.

(** C1 (as amended) on a skill whose code raises. *)
Lemma failed_skill_witness :
  let w := register boom_registration started in
  let out :=
    _process_request reference_host prompt (request_line "4" "boom" (JObj [])) w in
  error_code (out_response out) = Some (-32603)%Z
  /\ w_db (out_world out) = w_db w.
Proof.
  intros w out.
  destruct (failed_skill_propagates_uncharged reference_host
              (mkSkill "boom" "standard" "" (JObj []) "raise ValueError('boom')"
                       "1.0.0")
              (JObj []) None (tick_clock prompt) w (ValueError "boom") tt)
    as [_ Hrequest].
  - reflexivity.
  - destruct (Hrequest prompt (request_line "4" "boom" (JObj []))
                (request "4" "boom" (JObj [])) (JStr "boom"))
      as (_ & Hcode & Hdb).
    + reflexivity.
    + reflexivity.
    + reflexivity.
    + reflexivity.
    + reflexivity.
    + discriminate.
    + exact (conj Hcode Hdb).
Defined.

(** C1 as stated fails on a skill whose code raises: the request is answered
    with error -32603, and afterwards the skill has no statistics row and its
    legacy counter is still 0, although the call took 7 ms. *)
Lemma failing_skill_is_not_charged :
  let w := register boom_registration started in
  let out :=
    _process_request reference_host prompt (request_line "4" "boom" (JObj [])) w in
  error_code (out_response out) = Some (-32603)%Z
  /\ skill_statistics (tables (w_db (out_world out))) !! "boom" = None
  /\ sk_call_count <$> dynamic_skills (tables (w_db (out_world out))) !! "boom"
     = Some 0%Z.
Proof. repeat split; reflexivity. Qed.

(** C4 on a skill called once and then registered again with new code and a
    new version. *)
Lemma register_preserves_call_count_witness :
  let called :=
    out_world (_process_request reference_host prompt
                 (request_line "2" "echo" x_is_1)
                 (register echo_registration started)) in
  let again :=
    JObj [("name", JStr "echo"); ("code", JStr "pass"); ("version", JStr "2.0.0")] in
  exists row,
    dynamic_skills (tables (w_db (register again called))) !! "echo" = Some row
    /\ sk_call_count row = 1%Z
    /\ sk_code row = "pass"
    /\ sk_version row = "2.0.0".
Proof.
  intros called again.
  destruct (register_preserves_call_count reference_host again
              "2026-01-01 00:00:00" (w_db called)
              (accepted "echo" "2.0.0") (w_db (register again called)))
    as (fields & name & row & Hfields & Hname & Hrow & Hcount & _ & _ & _ & Hcode
        & Hversion & _).
  - reflexivity.
  - injection Hfields as <-. simpl in Hname, Hcode, Hversion.
    injection Hname as <-. injection Hcode as Hcode. injection Hversion as Hversion.
    exists row. split; [exact Hrow|]. split; [|split; congruence].
    rewrite Hcount. reflexivity.
Defined.

(** C10 on a registration that gives a name and code only, on a machine
    without a database file. *)
Lemma register_defaults_witness :
  handle_register_skill reference_host echo_registration "2026-01-01 00:00:00"
                        NoFile
  = (Ok (JObj [("success", JBool true);
               ("name", JStr "echo");
               ("category", JStr "standard");
               ("version", JStr "1.0.0");
               ("message", JStr "Skill 'echo' registered")]),
     Ready (mkStore {[ "echo" := mkSkillRow "standard" "" (JObj [])
                                            "result = params" "1.0.0"
                                            "2026-01-01 00:00:00" 0 ]} ∅ ∅)).
Proof.
  destruct (register_defaults reference_host
              [("name", JStr "echo"); ("code", JStr "result = params")]
              "2026-01-01 00:00:00" NoFile) as [Hminimal _].
  apply (Hminimal "echo" "result = params");
    [reflexivity | reflexivity | discriminate | discriminate
    | reflexivity | reflexivity | reflexivity | reflexivity].
Defined.

(** C7 on the skill [echo] called with [{"x": 1}]. *)
Lemma registered_skill_witness :
  let out :=
    _process_request reference_host prompt (request_line "2" "echo" x_is_1)
                     (register echo_registration started) in
  out_response out = jsonrpc_result (JStr "2") (JObj [("x", JNum 1)])
  /\ exists row,
       skill_statistics (tables (w_db (out_world out))) !! "echo" = Some row
       /\ st_direct_calls row = 1%Z
       /\ st_indirect_calls row = 0%Z.
Proof.
  intros out.
  destruct (registered_skill_runs_and_is_counted reference_host echo_registration
              "echo" "result = params" "2026-01-01 00:00:00" (w_db started)
              (accepted "echo" "1.0.0")
              (w_db (register echo_registration started))
              prompt (request_line "2" "echo" x_is_1) (request "2" "echo" x_is_1)
              x_is_1 tt x_is_1 tt)
    as (_ & (row & Hrow & Hdirect & Hindirect & _) & Hecho).
  - reflexivity.
  - reflexivity.
  - reflexivity.
  - reflexivity.
  - reflexivity.
  - reflexivity.
  - reflexivity.
  - reflexivity.
  - reflexivity.
  - reflexivity.
  - split; [apply Hecho; reflexivity|].
    exists row. exact (conj Hrow (conj Hdirect Hindirect)).
Defined.

(** C9 on a skill called once and then unregistered. *)
Lemma unregister_witness :
  let s :=
    tables (w_db (out_world (_process_request reference_host prompt
                               (request_line "2" "echo" x_is_1)
                               (register echo_registration started)))) in
  let gone :=
    (handle_unregister_skill reference_host (JObj [("name", JStr "echo")])
                             (Ready s)).2 in
  dynamic_skills (tables gone) !! "echo" = None
  /\ (st_direct_calls <$> skill_statistics (tables gone) !! "echo") = Some 1%Z
  /\ (handle_get_skill_statistics reference_host (JObj []) gone).1
     = (handle_get_skill_statistics reference_host (JObj []) (Ready s)).1.
Proof.
  intros s gone.
  destruct (unregister_keeps_statistics_and_edges reference_host
              [("name", JStr "echo")] "echo" s
              (mkSkillRow "standard" "" (JObj []) "result = params" "1.0.0"
                          "2026-01-01 00:00:00" 1))
    as (_ & _ & _ & Hquery & _).
  - reflexivity.
  - discriminate.
  - reflexivity.
  - split; [reflexivity|]. split; [reflexivity|].
    exact (Hquery (JObj [])).
Defined.

(** ** Further instances on the reference host *)

Import Cases.

(** X5 on a request for a method nobody registered. *)
Lemma request_id_is_echoed_witness :
  response_id (out_response (_process_request reference_host prompt
                               (request_line "9" "teleport" (JObj [])) started))
  = Some (JStr "9").
Proof.
  apply (request_id_is_echoed reference_host prompt
           (request_line "9" "teleport" (JObj [])) started
           (request "9" "teleport" (JObj []))).
  - reflexivity.
  - right. exists "teleport". reflexivity.
  - discriminate.
Defined.

(** X6 on a request whose method is an empty list. *)
Lemma unhashable_method_witness :
  let line := dumps (JObj [("id", JStr "5"); ("method", JArr [])]) in
  let out := _process_request reference_host prompt line started in
  response_id (out_response out) = Some JNull
  /\ out_enqueued out = false.
Proof.
  intros line out.
  destruct (unhashable_method_loses_request_id reference_host prompt line started
              [("id", JStr "5"); ("method", JArr [])] (JArr []))
    as (_ & Hid & Henqueued & _).
  - reflexivity.
  - reflexivity.
  - left. reflexivity.
  - exact (conj Hid Henqueued).
Defined.

(** X7 on a skill whose code is [raise ValueError()]. *)
Lemma exception_without_message_witness :
  let w :=
    @mkWorld bare_host
      (handle_register_skill bare_host mute_registration "2026-01-01 00:00:00"
                             NoFile).2 tt in
  let out :=
    _process_request bare_host prompt (request_line "6" "mute" (JObj [])) w in
  out_response out = jsonrpc_result (JStr "6") JNull.
Proof.
  intros w out.
  destruct (exception_without_message_is_answered_as_success bare_host prompt
              (request_line "6" "mute" (JObj [])) w
              (request "6" "mute" (JObj [])) (JStr "mute")
              (Dynamic (mkSkill "mute" "standard" "" (JObj [])
                                "raise ValueError()" "1.0.0"))
              (ValueError ""))
    as (Hresponse & _).
  - reflexivity.
  - reflexivity.
  - reflexivity.
  - reflexivity.
  - reflexivity.
  - reflexivity.
  - exact Hresponse.
Defined.

(** X8 on the first [ping] of a server. *)
Lemma core_handler_call_witness :
  let out :=
    _process_request reference_host prompt (request_line "1" "ping" (JObj []))
                     started in
  exists row,
    skill_statistics (tables (w_db (out_world out))) !! "ping" = Some row
    /\ st_direct_calls row = 1%Z
    /\ st_indirect_calls row = 0%Z.
Proof.
  intros out.
  destruct (core_handler_call_is_counted_on_success_only reference_host prompt
              (request_line "1" "ping" (JObj [])) started
              (request "1" "ping" (JObj [])) "ping"
              (run_scene_handler reference_host "ping"))
    as (_ & (row & Hrow & Hdirect & Hindirect & _) & _).
  - reflexivity.
  - reflexivity.
  - reflexivity.
  - reflexivity.
  - exists row. exact (conj Hrow (conj Hdirect Hindirect)).
Defined.

(** X10 on a skill registered under the name [ping]. *)
Lemma core_handler_shadows_witness :
  let registration := JObj [("name", JStr "ping"); ("code", JStr "pass")] in
  let d' := w_db (register registration started) in
  exists handler,
    resolve reference_host (JStr "ping") d' = Ok (Some (Static "ping" handler)).
Proof.
  intros registration d'.
  destruct (core_handler_shadows_dynamic_skill reference_host registration
              "2026-01-01 00:00:00" (w_db started) (accepted "ping" "1.0.0") d'
              "ping")
    as (_ & handler & _ & Hresolve).
  - reflexivity.
  - reflexivity.
  - constructor.
  - exists handler. exact Hresolve.
Defined.

(** X11 on a registration without code, on a machine without a database
    file: no file is created. *)
Lemma failed_registration_witness :
  (handle_register_skill reference_host (JObj [("name", JStr "x")])
                         "2026-01-01 00:00:00" NoFile).2 = NoFile.
Proof.
  destruct (failed_registration_changes_no_table reference_host
              (JObj [("name", JStr "x")]) "2026-01-01 00:00:00" NoFile
              (ValueError "Skill code is required") NoFile) as [_ Hvalid].
  - reflexivity.
  - destruct (Hvalid [("name", JStr "x")]) as [Hd _];
      [reflexivity | reflexivity | exact Hd].
Defined.

(** X12 on the skill [echo]. *)
Lemma registered_skill_is_found_witness :
  exists skill,
    get_dynamic_skill reference_host (JStr "echo")
                      (w_db (register echo_registration started))
    = Ok (Some skill)
    /\ skill_code skill = "result = params".
Proof.
  destruct (registered_skill_is_found reference_host echo_registration
              "2026-01-01 00:00:00" (w_db started) (accepted "echo" "1.0.0")
              (w_db (register echo_registration started)))
    as (fields & skill & Hfields & Hget & _ & _ & _ & _ & Hcode & _).
  - reflexivity.
  - injection Hfields as <-. simpl in Hcode. injection Hcode as Hcode.
    exists skill. split; [exact Hget | congruence].
Defined.

(** X13 on a name nobody registered. *)
Lemma unregistering_unknown_witness :
  (handle_unregister_skill reference_host (JObj [("name", JStr "ghost")])
                           (w_db started)).2 = w_db started.
Proof.
  destruct (unregistering_an_unknown_skill_fails reference_host
              [("name", JStr "ghost")] "ghost" (w_db started)) as [_ Hd].
  - reflexivity.
  - discriminate.
  - discriminate.
  - reflexivity.
  - exact Hd.
Defined.

(** X14 on the skill [echo], registered and then unregistered. *)
Lemma unregistered_skill_witness :
  let s := tables (w_db (register echo_registration started)) in
  let d' :=
    (handle_unregister_skill reference_host (JObj [("name", JStr "echo")])
                             (Ready s)).2 in
  get_dynamic_skill reference_host (JStr "echo") d' = Ok None
  /\ error_code (out_response
                   (_process_request reference_host prompt
                      (request_line "8" "echo" x_is_1)
                      (@mkWorld reference_host d' tt)))
     = Some (-32601)%Z.
Proof.
  intros s d'.
  destruct (unregistered_skill_is_gone reference_host [("name", JStr "echo")]
              "echo" s
              (mkSkillRow "standard" "" (JObj []) "result = params" "1.0.0"
                          "2026-01-01 00:00:00" 0))
    as (Hget & _ & Hrequest).
  - reflexivity.
  - discriminate.
  - reflexivity.
  - split; [exact Hget|].
    destruct (Hrequest eq_refl prompt (request_line "8" "echo" x_is_1)
                (request "8" "echo" x_is_1) tt) as [Hcode _];
      [reflexivity | reflexivity | exact Hcode].
Defined.

(** X15 on the skill [echo] executed for the caller [macro]. *)
Lemma skill_called_by_a_caller_witness :
  let w := register echo_registration started in
  let run :=
    execute_dynamic_skill reference_host
      (mkSkill "echo" "standard" "" (JObj []) "result = params" "1.0.0")
      x_is_1 (Some "macro") (tick_clock prompt) w in
  skill_call_graph (tables (w_db run.2)) !! ("macro", "echo") = Some 1%Z.
Proof.
  intros w run.
  destruct (skill_called_by_a_caller_counts_as_indirect reference_host
              (mkSkill "echo" "standard" "" (JObj []) "result = params" "1.0.0")
              x_is_1 "macro" (tick_clock prompt) w (tables (w_db w)) x_is_1 tt)
    as (_ & _ & Hedge & _).
  - reflexivity.
  - reflexivity.
  - exact Hedge.
Defined.

(** X18 on a machine without a database file. *)
Lemma server_start_witness :
  skill_statistics (tables (server_init NoFile)) !! "ping"
  = Some (mkStatRow true 0 0 None 0).
Proof.
  destruct (server_start_seeds_every_handler reference_host NoFile "ping")
    as [Hrow _].
  - eexists. reflexivity.
  - exact Hrow.
Defined.

(** X19 on a tracked call, an unregistration and an indirect call. *)
Lemma statistics_only_grow_witness :
  let ops :=
    [OpTrackCore "ping" 3 "t1"; OpUnregister (JObj [("name", JStr "ping")]);
     OpTrackIndirect "ping" "macro" 4 "t2"] in
  exists row',
    skill_statistics (tables (w_db (run_ops reference_host ops started))) !! "ping"
    = Some row'
    /\ grows (mkStatRow true 0 0 None 0) row'.
Proof.
  intros ops.
  destruct (statistics_only_grow reference_host ops started
              (run_sql (InsertIgnoreStatistics <$> handler_names) empty_store))
    as [Hrows _].
  - reflexivity.
  - exact (Hrows "ping" (mkStatRow true 0 0 None 0) eq_refl).
Defined.

(** X20 on the statistics of a server that has just started. *)
Lemma statistics_are_ranked_witness :
  exists rows,
    handle_get_skill_statistics reference_host (JObj []) (w_db started)
    = (Ok (JObj [("success", JBool true);
                 ("count",
                  JNum (Z.of_nat (size (skill_statistics (tables (w_db started))))));
                 ("statistics", JArr (stat_json <$> rows))]),
       init_db (w_db started))
    /\ StronglySorted by_total_calls_desc rows.
Proof.
  destruct (statistics_are_ranked_by_calls reference_host [] (w_db started))
    as (rows & Hrun & _ & Hsorted & _).
  - reflexivity.
  - exists rows. exact (conj Hrun Hsorted).
Defined.

(** X21 on the call graph after a compound handler has run. *)
Lemma call_graph_query_witness :
  let d :=
    w_db (out_world (_process_request reference_host prompt
                       (request_line "1" "render_product_views" (JObj []))
                       started)) in
  exists rows,
    (forall caller callee n,
       (caller, callee, n) ∈ rows
       <-> skill_call_graph (tables d) !! (caller, callee) = Some n
           /\ passes (JStr "render_product_views") caller
           /\ passes JNull callee)
    /\ StronglySorted by_call_count_desc rows.
Proof.
  intros d.
  destruct (call_graph_query_selects_matching_edges reference_host
              [("caller", JStr "render_product_views")] d)
    as (rows & _ & Hrows & _ & Hsorted).
  - right. exists "render_product_views". reflexivity.
  - left. reflexivity.
  - exists rows. exact (conj Hrows Hsorted).
Defined.


(** X23 on a registered dynamic skill. *)
Lemma call_handler_unknown_witness :
  call_handler reference_host "echo" x_is_1 (Some "macro") "2026-01-01 00:00:00"
               (tick_clock prompt) (register echo_registration started)
  = (Raise (ValueError "Handler not found: echo"),
     register echo_registration started).
Proof.
  apply (call_handler_reaches_core_handlers_only reference_host "echo" x_is_1
           (Some "macro") "2026-01-01 00:00:00" (tick_clock prompt)
           (register echo_registration started)).
  apply (bool_decide_eq_false_1 ("echo" ∈ handler_names)). reflexivity.
Defined.

(** X24 on [ping] called for the caller [macro]. *)
Lemma call_handler_records_witness :
  let call :=
    call_handler reference_host "ping" (JObj []) (Some "macro")
                 "2026-01-01 00:00:00" (tick_clock prompt) started in
  skill_call_graph (tables (w_db call.2)) !! ("macro", "ping") = Some 1%Z.
Proof.
  intros call.
  destruct (call_handler_records_calls_with_a_caller_only reference_host "ping"
              (run_scene_handler reference_host "ping") (JObj []) (Some "macro")
              "2026-01-01 00:00:00" (tick_clock prompt) started)
    as (_ & _ & _ & Hedge).
  - reflexivity.
  - exact Hedge.
Defined.

(** X25 on a [ping] written by the client. *)
Lemma client_request_witness :
  let line := dumps (send_request_message "u-1" "ping" JNull) in
  exists answer,
    from_dict (out_response (_process_request reference_host prompt line started))
    = Ok answer
    /\ resp_id answer = JStr "u-1".
Proof.
  intros line.
  destruct (client_request_is_answered_with_its_id reference_host prompt line
              started "u-1" "ping" JNull) as [Hanswer _].
  - reflexivity.
  - discriminate.
  - exact Hanswer.
Defined.

(** X27 on the reference host, whose [ping] handler is [handle_ping]. *)
Lemma ping_witness :
  ping reference_host
       (out_response (_process_request reference_host prompt
                        (dumps (send_request_message "u-2" "ping" JNull))
                        started))
  = false.
Proof.
  apply (ping_never_reports_a_responsive_server reference_host prompt
           (dumps (send_request_message "u-2" "ping" JNull)) started "u-2").
  - reflexivity.
  - intros params scene. reflexivity.
Defined.
